(** * react-use-watchlist: the reducer, the aggregate calculator and the
    operations of [WatchlistProvider], embedded from the hook's source
    module (the one the test suite imports as [../src]).

    Modelling conventions.

    - A JavaScript [number] is [number]: an integer or [NaN].  The code only
      adds and multiplies quantities and prices, and [NaN] is what
      arithmetic on a missing ([undefined]) field produces.  Fractions,
      infinities and the rounding of doubles are outside the model.
    - An [Item] is a JavaScript object with the four declared fields [id],
      [price], [quantity], [itemTotal] and an open set of further keys.  A
      declared field is [None] when the key is missing (reading it gives
      [undefined]) and otherwise holds a value of its declared type; the
      further keys are a finite map.  The same type stands for the [object]
      payload of [UPDATE_ITEM], which is a partial item.
    - Object spread [{...a, ...b}] is the field-wise, right-biased merge
      [spread a b]: a key of [b] wins, a key only in [a] is kept.
    - The closures of [WatchlistProvider] ([addItem], [removeItem], ...)
      read the rendered [state], call [dispatch] and the optional callbacks
      and may throw.  They are functions from the props and the rendered
      state into a small writer/exception monad [M] whose log records, in
      order, each dispatched action and each callback invocation.  [run]
      feeds the dispatched actions to [reducer], as [React.useReducer]
      does, and [step] is one call on the rendered state followed by the
      re-render: successive calls each see the state the previous one
      produced, as in the test suite, where every call is its own [act]. *)

From Stdlib Require Import ZArith List Lia Bool Ascii String.
From stdpp Require Import base option list gmap strings fin_maps.

Local Open Scope string_scope.
Local Open Scope list_scope.
Local Open Scope Z_scope.

(** ** JavaScript values *)

Inductive number : Type :=
| Num (z : Z)
| NaN.

(** Values stored under the free-form keys of an item and in the metadata. *)
Inductive value : Type :=
| VNull
| VBool (b : bool)
| VNumber (n : number)
| VString (s : string).

#[global] Instance number_eq_dec : EqDecision number.
Proof. solve_decision. Defined.

#[global] Instance value_eq_dec : EqDecision value.
Proof. solve_decision. Defined.

(** [a + b] on numbers. *)
Definition num_add (a b : number) : number :=
  match a, b with
  | Num x, Num y => Num (x + y)
  | _, _ => NaN
  end.

(** [a * b] on numbers. *)
Definition num_mul (a b : number) : number :=
  match a, b with
  | Num x, Num y => Num (x * y)
  | _, _ => NaN
  end.

(** Reading a numeric field in arithmetic position: [undefined] becomes
    [NaN]. *)
Definition ToNumber (v : option number) : number :=
  match v with
  | Some n => n
  | None => NaN
  end.

(** Truthiness of a numeric field: [undefined], [0] and [NaN] are falsy. *)
Definition truthy_number (v : option number) : bool :=
  match v with
  | Some (Num z) => negb (z =? 0)
  | Some NaN => false
  | None => false
  end.

(** Truthiness of a string field: [undefined] and the empty string are
    falsy. *)
Definition truthy_string (v : option string) : bool :=
  match v with
  | Some s => negb (String.eqb s "")
  | None => false
  end.

(** [n <= 0]; every comparison with [NaN] is false. *)
Definition le_zero (n : number) : bool :=
  match n with
  | Num z => z <=? 0
  | NaN => false
  end.

(** ** Data model *)

Module Item.

Record t : Type := mk {
  id : option string;
  price : option number;
  quantity : option number;
  itemTotal : option number;
  extra : gmap string value
}.

(** [{...a, ...b}] *)
Definition spread (a b : t) : t :=
  {| id := id b ∪ id a;
     price := price b ∪ price a;
     quantity := quantity b ∪ quantity a;
     itemTotal := itemTotal b ∪ itemTotal a;
     extra := extra b ∪ extra a |}.

(** [{...item, quantity: q}] *)
Definition with_quantity (item : t) (q : number) : t :=
  {| id := id item;
     price := price item;
     quantity := Some q;
     itemTotal := itemTotal item;
     extra := extra item |}.

(** [{...item, itemTotal: x}] *)
Definition with_itemTotal (item : t) (x : number) : t :=
  {| id := id item;
     price := price item;
     quantity := quantity item;
     itemTotal := Some x;
     extra := extra item |}.

End Item.

Abbreviation Item := Item.t.

Module State.

(** [InitialState].  [id] is missing from the [initialState] template and
    [metadata] is optional, so both may be absent; [totalUniqueItems] only
    ever receives a literal [0] or an array length. *)
Record t : Type := mk {
  id : option string;
  items : list Item;
  isEmpty : bool;
  totalItems : number;
  totalUniqueItems : nat;
  metadata : option (gmap string value)
}.

End State.

Abbreviation State := State.t.

Inductive Actions : Type :=
| SET_ITEMS (payload : list Item)
| ADD_ITEM (payload : Item)
| REMOVE_ITEM (id : string)
| UPDATE_ITEM (id : string) (payload : Item)
| EMPTY_WATCHLIST
| CLEAR_WATCHLIST_META
| SET_WATCHLIST_META (payload : gmap string value)
| UPDATE_WATCHLIST_META (payload : gmap string value).

Definition initialState : State :=
  {| State.id := None;
     State.items := [];
     State.isEmpty := true;
     State.totalItems := Num 0;
     State.totalUniqueItems := 0%nat;
     State.metadata := Some ∅ |}.

(** ** Aggregate calculator *)

Definition calculateItemTotal (item : Item) : Item :=
  Item.with_itemTotal item
    (num_mul (ToNumber (Item.price item)) (ToNumber (Item.quantity item))).

Definition calculateItemTotals (items : list Item) : list Item :=
  List.map calculateItemTotal items.

(** [items.reduce((sum, item) => sum + item.quantity!, 0)] *)
Definition calculateTotalItems (items : list Item) : number :=
  List.fold_left (fun sum item => num_add sum (ToNumber (Item.quantity item)))
    items (Num 0).

Definition calculateUniqueItems (items : list Item) : nat :=
  List.length items.

(** [{...initialState, ...state, items, totalItems, totalUniqueItems,
    isEmpty}]: a key missing from [state] falls back to the template. *)
Definition generateWatchlistState (state : State) (items : list Item) : State :=
  let totalUniqueItems := calculateUniqueItems items in
  let isEmpty := Nat.eqb totalUniqueItems 0 in
  {| State.id := State.id state ∪ State.id initialState;
     State.items := calculateItemTotals items;
     State.isEmpty := isEmpty;
     State.totalItems := calculateTotalItems items;
     State.totalUniqueItems := totalUniqueItems;
     State.metadata := State.metadata state ∪ State.metadata initialState |}.

(** ** Reducer *)

(** [{...state, metadata: m}] *)
Definition with_metadata (state : State) (m : gmap string value) : State :=
  {| State.id := State.id state;
     State.items := State.items state;
     State.isEmpty := State.isEmpty state;
     State.totalItems := State.totalItems state;
     State.totalUniqueItems := State.totalUniqueItems state;
     State.metadata := Some m |}.

(** [item.id === id] for a string [id]. *)
Definition has_id (id : string) (item : Item) : bool :=
  bool_decide (Item.id item = Some id).

(** The [default] branch of the switch throws; it is unreachable for a
    value of the [Actions] union, so the reducer is total on it. *)
Definition reducer (state : State) (action : Actions) : State :=
  match action with
  | SET_ITEMS payload => generateWatchlistState state payload
  | ADD_ITEM payload =>
      let items := State.items state ++ [payload] in
      generateWatchlistState state items
  | UPDATE_ITEM id payload =>
      let items :=
        List.map (fun item =>
                    if negb (has_id id item) then item
                    else Item.spread item payload)
          (State.items state) in
      generateWatchlistState state items
  | REMOVE_ITEM id =>
      let items := List.filter (fun i => negb (has_id id i)) (State.items state) in
      generateWatchlistState state items
  | EMPTY_WATCHLIST => initialState
  | CLEAR_WATCHLIST_META => with_metadata state ∅
  | SET_WATCHLIST_META payload => with_metadata state payload
  | UPDATE_WATCHLIST_META payload =>
      with_metadata state (payload ∪ default ∅ (State.metadata state))
  end.

(** ** Watchlist provider *)

(** Which of the optional callback props were supplied. *)
Record Props : Type := {
  onSetItems : bool;
  onItemAdd : bool;
  onItemUpdate : bool;
  onItemRemove : bool
}.

(** A callback invocation with its argument. *)
Inductive callback : Type :=
| OnSetItems (items : list Item)
| OnItemAdd (payload : Item)
| OnItemUpdate (payload : Item)
| OnItemRemove (id : string).

Inductive event : Type :=
| Dispatch (action : Actions)
| Call (c : callback).

(** The two [throw new Error(...)] of the provider:
    "You must provide an `id` for items" and "No such item to update". *)
Inductive error : Type :=
| MissingIdentifier
| NotFound.

(** Log of effects so far, then an exception or a result. *)
Definition M (A : Type) : Type := (list event * (error + A))%type.

#[global] Instance M_ret : MRet M := fun A a => ([], inr a).

#[global] Instance M_bind : MBind M := fun A B k m =>
  match m with
  | (log, inl e) => (log, inl e)
  | (log, inr a) => let '(log', r) := k a in (log ++ log', r)
  end.

Definition throw {A : Type} (e : error) : M A := ([], inl e).

Definition dispatch (action : Actions) : M unit := ([Dispatch action], inr tt).

(** [cb && cb(arg)] *)
Definition invoke (supplied : bool) (c : callback) : M unit :=
  (if supplied then [Call c] else [], inr tt).

(** [item.quantity || 1] *)
Definition quantity_or_1 (item : Item) : number :=
  if truthy_number (Item.quantity item) then ToNumber (Item.quantity item)
  else Num 1.

(** The state [useReducer] starts from when the store holds nothing for the
    key: [JSON.parse(JSON.stringify({id, ...initialState, items:
    defaultItems, metadata}))].  An [undefined] [metadata] prop overrides
    the template's [{}] and is then dropped by [JSON.stringify].  (A [NaN]
    inside [defaultItems] would come back as [null]; the model leaves the
    items as they are.) *)
Definition seedState (id : string) (defaultItems : list Item)
    (metadata : option (gmap string value)) : State :=
  {| State.id := Some id;
     State.items := defaultItems;
     State.isEmpty := State.isEmpty initialState;
     State.totalItems := State.totalItems initialState;
     State.totalUniqueItems := State.totalUniqueItems initialState;
     State.metadata := metadata |}.

Section Provider.

Variable props : Props.
Variable state : State.

Definition setItems (items : list Item) : M unit :=
  dispatch (SET_ITEMS
              (List.map (fun item => Item.with_quantity item (quantity_or_1 item))
                 items));;
  invoke (onSetItems props) (OnSetItems items).

(** [quantity] is [None] when the second argument is omitted (default [1]). *)
Definition addItem (item : Item) (quantity : option number) : M unit :=
  let quantity := default (Num 1) quantity in
  match Item.id item with
  | None => throw MissingIdentifier
  | Some id =>
      if String.eqb id "" then throw MissingIdentifier
      else
        match List.find (has_id id) (State.items state) with
        | None =>
            let payload := Item.with_quantity item quantity in
            dispatch (ADD_ITEM payload);;
            invoke (onItemAdd props) (OnItemAdd payload)
        | Some currentItem =>
            let payload :=
              Item.with_quantity item
                (num_add (ToNumber (Item.quantity currentItem)) quantity) in
            dispatch (UPDATE_ITEM id payload);;
            invoke (onItemUpdate props) (OnItemUpdate payload)
        end
  end.

(** [payload] is [None] for a falsy argument ([undefined] or [null]). *)
Definition updateItem (id : string) (payload : option Item) : M unit :=
  match payload with
  | None => mret tt
  | Some payload =>
      if String.eqb id "" then mret tt
      else
        dispatch (UPDATE_ITEM id payload);;
        invoke (onItemUpdate props) (OnItemUpdate payload)
  end.

Definition updateItemQuantity (id : string) (quantity : number) : M unit :=
  if le_zero quantity then
    invoke (onItemRemove props) (OnItemRemove id);;
    dispatch (REMOVE_ITEM id)
  else
    match List.find (has_id id) (State.items state) with
    | None => throw NotFound
    | Some currentItem =>
        let payload := Item.with_quantity currentItem quantity in
        dispatch (UPDATE_ITEM id payload);;
        invoke (onItemUpdate props) (OnItemUpdate payload)
    end.

Definition removeItem (id : string) : M unit :=
  if String.eqb id "" then mret tt
  else
    dispatch (REMOVE_ITEM id);;
    invoke (onItemRemove props) (OnItemRemove id).

Definition emptyWatchlist : M unit := dispatch EMPTY_WATCHLIST.

Definition getItem (id : string) : option Item :=
  List.find (has_id id) (State.items state).

Definition inWatchlist (id : string) : bool :=
  List.existsb (has_id id) (State.items state).

Definition clearWatchlistMetadata : M unit := dispatch CLEAR_WATCHLIST_META.

Definition setWatchlistMetadata (metadata : option (gmap string value)) : M unit :=
  match metadata with
  | None => mret tt
  | Some metadata => dispatch (SET_WATCHLIST_META metadata)
  end.

Definition updateWatchlistMetadata (metadata : option (gmap string value)) : M unit :=
  match metadata with
  | None => mret tt
  | Some metadata => dispatch (UPDATE_WATCHLIST_META metadata)
  end.

End Provider.

(** One call of an operation the provider exposes. *)
Inductive operation : Type :=
| SetItems (items : list Item)
| AddItem (item : Item) (quantity : option number)
| UpdateItem (id : string) (payload : option Item)
| UpdateItemQuantity (id : string) (quantity : number)
| RemoveItem (id : string)
| EmptyWatchlist
| ClearWatchlistMetadata
| SetWatchlistMetadata (metadata : option (gmap string value))
| UpdateWatchlistMetadata (metadata : option (gmap string value)).

Definition perform (props : Props) (state : State) (op : operation) : M unit :=
  match op with
  | SetItems items => setItems props items
  | AddItem item quantity => addItem props state item quantity
  | UpdateItem id payload => updateItem props id payload
  | UpdateItemQuantity id quantity => updateItemQuantity props state id quantity
  | RemoveItem id => removeItem props id
  | EmptyWatchlist => emptyWatchlist
  | ClearWatchlistMetadata => clearWatchlistMetadata
  | SetWatchlistMetadata metadata => setWatchlistMetadata metadata
  | UpdateWatchlistMetadata metadata => updateWatchlistMetadata metadata
  end.

(** The actions of a log, in dispatch order. *)
Definition dispatched (log : list event) : list Actions :=
  List.flat_map (fun e => match e with Dispatch a => [a] | Call _ => [] end) log.

(** The callback invocations of a log, in call order. *)
Definition called (log : list event) : list callback :=
  List.flat_map (fun e => match e with Call c => [c] | Dispatch _ => [] end) log.

Definition thrown {A : Type} (m : M A) : option error :=
  match m.2 with
  | inl e => Some e
  | inr _ => None
  end.

(** [useReducer]: the next rendered state is the reducer folded over the
    actions dispatched during the call. *)
Definition run (m : M unit) (state : State) : State :=
  List.fold_left reducer (dispatched m.1) state.

(** The state rendered after one call of [op] on the rendered [state]. *)
Definition step (props : Props) (op : operation) (state : State) : State :=
  run (perform props state op) state.

(** ** Specification-side predicates *)

(** The sum of the quantities of a sequence of items, by recursion on the
    sequence (the reducer computes it with a left fold, see
    [calculateTotalItems]). *)
Fixpoint sum_quantities (items : list Item) : number :=
  match items with
  | [] => Num 0
  | item :: rest => num_add (ToNumber (Item.quantity item)) (sum_quantities rest)
  end.

(** [itemTotal] is the price times the quantity. *)
Definition itemTotal_ok (item : Item) : Prop :=
  Item.itemTotal item
  = Some (num_mul (ToNumber (Item.price item)) (ToNumber (Item.quantity item))).

(** The derived fields of a state agree with its items. *)
Definition Consistent (s : State) : Prop :=
  State.totalItems s = sum_quantities (State.items s)
  ∧ State.totalUniqueItems s = length (State.items s)
  ∧ State.isEmpty s = bool_decide (State.totalUniqueItems s = 0%nat)
  ∧ Forall itemTotal_ok (State.items s).

#[global] Instance itemTotal_ok_dec item : Decision (itemTotal_ok item).
Proof. unfold itemTotal_ok. apply _. Defined.

#[global] Instance Consistent_dec s : Decision (Consistent s).
Proof. unfold Consistent. apply _. Defined.

(** No two items share an [id]. *)
Definition unique_ids (s : State) : Prop :=
  NoDup (List.map Item.id (State.items s)).

#[global] Instance unique_ids_dec s : Decision (unique_ids s).
Proof. unfold unique_ids. apply _. Defined.

(** The number of items whose [id] is [x]. *)
Definition count_id (x : string) (items : list Item) : nat :=
  length (List.filter (has_id x) items).

(** Calls that cannot introduce a second item with some [id]: [setItems]
    with a list that has no duplicate [id] itself, and [updateItem] with a
    payload that has no [id] key or repeats the [id] it addresses; every
    other call qualifies. *)
Definition keeps_ids (op : operation) : Prop :=
  match op with
  | SetItems items => NoDup (List.map Item.id items)
  | UpdateItem x (Some payload) =>
      Item.id payload = None ∨ Item.id payload = Some x
  | _ => True
  end.

#[global] Instance keeps_ids_dec op : Decision (keeps_ids op).
Proof. destruct op as [| |? []| | | | | |]; simpl; apply _. Defined.

(** One item after [UPDATE_ITEM id payload] and the recomputation of its
    total. *)
Definition updated (id : string) (payload : Item) (item : Item) : Item :=
  calculateItemTotal
    (if negb (has_id id item) then item else Item.spread item payload).

(** The three actions that only touch [metadata]. *)
Definition is_metadata_action (a : Actions) : bool :=
  match a with
  | CLEAR_WATCHLIST_META | SET_WATCHLIST_META _ | UPDATE_WATCHLIST_META _ => true
  | _ => false
  end.

(** ** Sample data, from the test suite *)

Definition noCallbacks : Props :=
  {| onSetItems := false; onItemAdd := false;
     onItemUpdate := false; onItemRemove := false |}.

Definition allCallbacks : Props :=
  {| onSetItems := true; onItemAdd := true;
     onItemUpdate := true; onItemRemove := true |}.

(** [{ id, price }] *)
Definition item_of (id : string) (price : Z) : Item :=
  {| Item.id := Some id;
     Item.price := Some (Num price);
     Item.quantity := None;
     Item.itemTotal := None;
     Item.extra := ∅ |}.

(** A provider rendered with [defaultItems = [{ id: "test", price: 1000 }]]
    over an empty store. *)
Definition seeded : State := seedState "w" [item_of "test" 1000] None.

(** An empty provider after [addItem({ id: "test", price: 1000 })]. *)
Definition one_item : State :=
  step noCallbacks (AddItem (item_of "test" 1000) None) (seedState "w" [] None).

(** ** Identifier, storage key and local storage *)

(** The digits of [Number.prototype.toString(36)]. *)
Definition digits36 : string := "0123456789abcdefghijklmnopqrstuvwxyz".

Definition digit36 (d : nat) : ascii :=
  default "0"%char (String.get d digits36).

Fixpoint toString36_from (fuel n : nat) (acc : string) : string :=
  match fuel with
  | O => acc
  | S fuel' =>
      let acc' := String (digit36 (n mod 36)) acc in
      if (n / 36 =? 0)%nat then acc' else toString36_from fuel' (n / 36) acc'
  end.

(** [n.toString(36)] for a non-negative integer [n]. *)
Definition toString36 (n : nat) : string := toString36_from (S n) n "".

(** [[...Array(len)].map(() => (~~(Math.random() * 36)).toString(36)).join("")].
    The random source is the argument [draw]: [draw i] is the integer
    [~~(Math.random() * 36)] of the [i]-th call of the callback.  [len] is
    [None] when the argument is omitted (default [12]). *)
Definition createWatchlistIdentifier (draw : nat → nat) (len : option nat) : string :=
  let len := default 12%nat len in
  String.concat "" (List.map (fun i => toString36 (draw i)) (List.seq 0 len)).

(** [const id = watchlistId ? watchlistId : createWatchlistIdentifier()];
    [generated] is the identifier the generator returned. *)
Definition provider_id (watchlistId : option string) (generated : string) : string :=
  match watchlistId with
  | Some id => if String.eqb id "" then generated else id
  | None => generated
  end.

(** [watchlistId ? `react-use-watchlist-${id}` : `react-use-watchlist`] *)
Definition storage_key (watchlistId : option string) (generated : string) : string :=
  if truthy_string watchlistId
  then String.append "react-use-watchlist-" (provider_id watchlistId generated)
  else "react-use-watchlist".

(** [window.localStorage]: its entries, and whether [getItem] and [setItem]
    throw (storage blocked, quota exceeded). *)
Record LocalStorage : Type := {
  entries : gmap string string;
  getItem_throws : bool;
  setItem_throws : bool
}.

(** The initialiser [useLocalStorage] passes to [React.useState].  [window]
    is [None] where [typeof window] is ["undefined"]; a missing entry reads
    as [null]; [null], [false] and the empty string are falsy. *)
Definition useLocalStorage_initial (window : option LocalStorage)
    (key initialValue : string) : string :=
  match window with
  | None => initialValue
  | Some localStorage =>
      if getItem_throws localStorage then initialValue
      else
        match entries localStorage !! key with
        | Some item => if String.eqb item "" then initialValue else item
        | None => initialValue
        end
  end.

(** The argument of [setValue]: a string, or a function of the stored
    value. *)
Inductive ValueOrUpdater : Type :=
| Value (v : string)
| Updater (f : string → string).

(** What [setValue] leaves behind: the value given to [setStoredValue], the
    storage, and whether the [catch] branch logged an error. *)
Record SetValueResult : Type := {
  storedValue : string;
  window_after : option LocalStorage;
  logged : bool
}.

(** [setValue] of [useLocalStorage].  [setStoredValue] runs before
    [window.localStorage.setItem], so it has taken effect when the latter
    throws. *)
Definition setValue (key : string) (value : ValueOrUpdater)
    (stored : string) (window : option LocalStorage) : SetValueResult :=
  let valueToStore :=
    match value with
    | Value v => v
    | Updater f => f stored
    end in
  match window with
  | None =>
      {| storedValue := valueToStore; window_after := None; logged := true |}
  | Some localStorage =>
      if setItem_throws localStorage then
        {| storedValue := valueToStore;
           window_after := Some localStorage;
           logged := true |}
      else
        {| storedValue := valueToStore;
           window_after :=
             Some {| entries := <[key := valueToStore]> (entries localStorage);
                     getItem_throws := getItem_throws localStorage;
                     setItem_throws := setItem_throws localStorage |};
           logged := false |}
  end.

(** ** Sequences of calls *)

(** The state rendered after the calls [ops], one per render, in order. *)
Definition steps (props : Props) (ops : list operation) (state : State) : State :=
  List.fold_left (fun s op => step props op s) ops state.

(** The four actions that replace the item sequence. *)
Definition is_item_action (a : Actions) : bool :=
  match a with
  | SET_ITEMS _ | ADD_ITEM _ | UPDATE_ITEM _ _ | REMOVE_ITEM _ => true
  | _ => false
  end.

(** The three operations that only dispatch a metadata action. *)
Definition is_metadata_operation (op : operation) : bool :=
  match op with
  | ClearWatchlistMetadata | SetWatchlistMetadata _ | UpdateWatchlistMetadata _ => true
  | _ => false
  end.

(** The operations on the items other than [emptyWatchlist]. *)
Definition is_item_operation (op : operation) : bool :=
  match op with
  | SetItems _ | AddItem _ _ | UpdateItem _ _ | UpdateItemQuantity _ _
  | RemoveItem _ => true
  | _ => false
  end.

(** ** Arithmetic on [number] *)

Lemma num_add_assoc a b c : num_add a (num_add b c) = num_add (num_add a b) c.
Proof. destruct a, b, c; simpl; try reflexivity. f_equal. lia. Qed.

Lemma num_add_0_l a : num_add (Num 0) a = a.
Proof. destruct a; reflexivity. Qed.

Lemma num_add_0_r a : num_add a (Num 0) = a.
Proof. destruct a; simpl; [f_equal; lia | reflexivity]. Qed.

(** ** The aggregate calculator *)

Lemma fold_left_sum_quantities (items : list Item) (acc : number) :
  List.fold_left (fun sum item => num_add sum (ToNumber (Item.quantity item)))
    items acc
  = num_add acc (sum_quantities items).
Proof.
  revert acc. induction items as [|item rest IH]; intros acc; simpl.
  - symmetry. apply num_add_0_r.
  - rewrite IH. symmetry. apply num_add_assoc.
Qed.

Lemma calculateTotalItems_sum (items : list Item) :
  calculateTotalItems items = sum_quantities items.
Proof.
  unfold calculateTotalItems. rewrite fold_left_sum_quantities.
  apply num_add_0_l.
Qed.

Lemma calculateItemTotal_ok item : itemTotal_ok (calculateItemTotal item).
Proof. reflexivity. Qed.

Lemma calculateItemTotal_fixed item :
  itemTotal_ok item → calculateItemTotal item = item.
Proof.
  unfold itemTotal_ok, calculateItemTotal, Item.with_itemTotal.
  destruct item as [i p q t e]; simpl. intros ->. reflexivity.
Qed.

Lemma calculateItemTotals_ok items : Forall itemTotal_ok (calculateItemTotals items).
Proof.
  induction items as [|item rest IH]; constructor; auto using calculateItemTotal_ok.
Qed.

Lemma calculateItemTotals_fixed items :
  Forall itemTotal_ok items → calculateItemTotals items = items.
Proof.
  induction 1 as [|item rest Hitem _ IH]; simpl; [reflexivity|].
  rewrite calculateItemTotal_fixed by assumption. f_equal. exact IH.
Qed.

Lemma calculateItemTotals_length items :
  length (calculateItemTotals items) = length items.
Proof. apply List.length_map. Qed.

Lemma calculateItemTotals_ids items :
  List.map Item.id (calculateItemTotals items) = List.map Item.id items.
Proof.
  unfold calculateItemTotals. rewrite List.map_map. reflexivity.
Qed.

Lemma calculateItemTotals_sum items :
  sum_quantities (calculateItemTotals items) = sum_quantities items.
Proof.
  induction items as [|item rest IH]; simpl; [reflexivity|]. rewrite IH. reflexivity.
Qed.

Lemma generateWatchlistState_Consistent state items :
  Consistent (generateWatchlistState state items).
Proof.
  unfold Consistent, generateWatchlistState, calculateUniqueItems; simpl.
  rewrite calculateItemTotals_sum, calculateItemTotals_length.
  repeat split.
  - apply calculateTotalItems_sum.
  - destruct items; reflexivity.
  - apply calculateItemTotals_ok.
Qed.

Lemma initialState_Consistent : Consistent initialState.
Proof. repeat split. constructor. Qed.

Lemma with_metadata_Consistent state m :
  Consistent (with_metadata state m) ↔ Consistent state.
Proof. reflexivity. Qed.

(** A metadata action copies the items and the three aggregate fields. *)
Lemma reducer_metadata_action state a :
  is_metadata_action a = true →
  State.items (reducer state a) = State.items state
  ∧ State.totalItems (reducer state a) = State.totalItems state
  ∧ State.totalUniqueItems (reducer state a) = State.totalUniqueItems state
  ∧ State.isEmpty (reducer state a) = State.isEmpty state
  ∧ State.id (reducer state a) = State.id state.
Proof. destruct a; simpl; intros H; try discriminate H; repeat split. Qed.

(** ** The reducer keeps the derived fields in step with the items *)

(** C1 (as amended): for every state and every action, the state the
    reducer returns has [totalItems] equal to the sum of the quantities of
    its items, [totalUniqueItems] equal to the number of items, [isEmpty]
    equal to [totalUniqueItems == 0] and every [itemTotal] equal to price
    times quantity, provided the action is not one of the three metadata
    actions or the prior state already had these properties. *)
Theorem reducer_Consistent (state : State) (action : Actions) :
  (is_metadata_action action = true → Consistent state) →
  Consistent (reducer state action).
Proof.
  intros Hmeta.
  destruct action; simpl in *;
    try apply generateWatchlistState_Consistent;
    try apply initialState_Consistent;
    apply with_metadata_Consistent, Hmeta; reflexivity.
Qed.

Lemma one_item_Consistent : Consistent one_item.
Proof. vm_compute. repeat split. repeat constructor. Qed.

Lemma reducer_Consistent_witness :
  Consistent one_item ∧ Consistent (reducer one_item CLEAR_WATCHLIST_META).
Proof.
  split.
  - exact one_item_Consistent.
  - apply (reducer_Consistent one_item CLEAR_WATCHLIST_META).
    intros _. exact one_item_Consistent.
Defined.

(** C1, as stated, fails: the provider seeded with one default item starts
    with [totalItems = 0], [totalUniqueItems = 0] and [isEmpty = true]
    next to a non-empty item sequence, and [CLEAR_WATCHLIST_META] copies
    all of that: afterwards [totalUniqueItems] is still [0] while there is
    one item, and the item has no [itemTotal]. *)
Lemma reducer_Consistent_counterexample :
  let s' := reducer seeded CLEAR_WATCHLIST_META in
  State.items s' = [item_of "test" 1000]
  ∧ State.totalUniqueItems s' = 0%nat
  ∧ State.isEmpty s' = true
  ∧ State.totalItems s' = Num 0
  ∧ sum_quantities (State.items s') = NaN
  ∧ ¬ Consistent s'.
Proof.
  repeat split. intros (_ & Hlen & _). vm_compute in Hlen. discriminate Hlen.
Qed.

(** A metadata action preserves consistency in both directions. *)
Lemma reducer_metadata_Consistent state action :
  is_metadata_action action = true →
  (Consistent (reducer state action) ↔ Consistent state).
Proof.
  intros H. destruct action; try discriminate H; apply with_metadata_Consistent.
Qed.

(** ** Emptying and clearing *)

(** C7: whatever the prior state, [EMPTY_WATCHLIST] (and so the provider's
    [emptyWatchlist]) yields the canonical empty state: no items,
    [totalItems = 0], [totalUniqueItems = 0], [isEmpty = true], empty
    metadata and no [id]. *)
Theorem emptyWatchlist_initialState (props : Props) (state : State) :
  let s' := step props EmptyWatchlist state in
  s' = reducer state EMPTY_WATCHLIST
  ∧ s' = initialState
  ∧ State.items s' = []
  ∧ State.totalItems s' = Num 0
  ∧ State.totalUniqueItems s' = 0%nat
  ∧ State.isEmpty s' = true
  ∧ State.metadata s' = Some ∅
  ∧ State.id s' = None.
Proof. repeat split. Qed.

(** C8: dispatching [CLEAR_WATCHLIST_META] twice in a row yields the same
    state as dispatching it once, in the reducer and through the provider's
    [clearWatchlistMetadata]. *)
Theorem CLEAR_WATCHLIST_META_idempotent (props : Props) (state : State) :
  reducer (reducer state CLEAR_WATCHLIST_META) CLEAR_WATCHLIST_META
  = reducer state CLEAR_WATCHLIST_META
  ∧ step props ClearWatchlistMetadata (step props ClearWatchlistMetadata state)
    = step props ClearWatchlistMetadata state
  ∧ State.metadata (reducer state CLEAR_WATCHLIST_META) = Some ∅.
Proof. repeat split. Qed.

(** ** Lists of items looked up by [id] *)

Lemma has_id_true x item : has_id x item = true ↔ Item.id item = Some x.
Proof. unfold has_id. apply bool_decide_eq_true. Qed.

Lemma has_id_false x item : has_id x item = false ↔ Item.id item ≠ Some x.
Proof. unfold has_id. apply bool_decide_eq_false. Qed.

Lemma has_id_same_id x item item' :
  Item.id item' = Item.id item → has_id x item' = has_id x item.
Proof. unfold has_id. intros ->. reflexivity. Qed.

Lemma find_has_id_None x (items : list Item) :
  List.find (has_id x) items = None ↔ (∀ item, In item items → Item.id item ≠ Some x).
Proof.
  split.
  - intros H item Hin. apply has_id_false. exact (List.find_none _ _ H item Hin).
  - induction items as [|item rest IH]; intros H; simpl; [reflexivity|].
    rewrite (proj2 (has_id_false x item)) by (apply H; left; reflexivity).
    apply IH. intros item' Hin. apply H. right. exact Hin.
Qed.

Lemma find_has_id_Some x (items : list Item) item :
  List.find (has_id x) items = Some item → In item items ∧ Item.id item = Some x.
Proof.
  intros H. apply List.find_some in H as [Hin Hid]. split; [exact Hin|].
  apply has_id_true, Hid.
Qed.

Lemma count_id_0 x (items : list Item) :
  count_id x items = 0%nat ↔ (∀ item, In item items → Item.id item ≠ Some x).
Proof.
  unfold count_id. induction items as [|item rest IH]; simpl.
  - split; [intros _ item []|reflexivity].
  - destruct (has_id x item) eqn:E; simpl.
    + split; [discriminate|]. intros H. exfalso.
      apply (H item); [left; reflexivity|]. apply has_id_true, E.
    + rewrite IH. split.
      * intros H item' [<-|Hin]; [apply has_id_false, E|apply H, Hin].
      * intros H item' Hin. apply H. right. exact Hin.
Qed.

Lemma not_in_ids x (items : list Item) :
  (∀ item, In item items → Item.id item ≠ Some x) ↔ ¬ In (Some x) (List.map Item.id items).
Proof.
  rewrite List.in_map_iff. split.
  - intros H (item & Hid & Hin). exact (H item Hin Hid).
  - intros H item Hin Hid. apply H. exists item. split; assumption.
Qed.

Lemma filter_has_id_absent x (items : list Item) :
  (∀ item, In item items → Item.id item ≠ Some x) →
  List.filter (fun i => negb (has_id x i)) items = items.
Proof.
  induction items as [|item rest IH]; intros H; simpl; [reflexivity|].
  rewrite (proj2 (has_id_false x item)) by (apply H; left; reflexivity). simpl.
  f_equal. apply IH. intros item' Hin. apply H. right. exact Hin.
Qed.

Lemma NoDup_ids_filter (f : Item → bool) (items : list Item) :
  NoDup (List.map Item.id items) → NoDup (List.map Item.id (List.filter f items)).
Proof.
  induction items as [|item rest IH]; simpl; intros H; [exact H|].
  apply NoDup_cons in H as [Hnotin Hrest].
  destruct (f item); simpl; [|apply IH, Hrest].
  apply NoDup_cons. split; [|apply IH, Hrest].
  intros Hin. apply Hnotin.
  apply list_elem_of_In in Hin. apply list_elem_of_In.
  apply List.in_map_iff in Hin as (item' & Hid & Hin').
  apply List.in_map_iff. exists item'. split; [exact Hid|].
  apply List.filter_In in Hin'. apply Hin'.
Qed.

(** Transformations of the items that leave every [id] alone. *)
Section SameIds.

Variable f : Item → Item.
Hypothesis f_id : ∀ item, Item.id (f item) = Item.id item.

Lemma map_same_ids (items : list Item) :
  List.map Item.id (List.map f items) = List.map Item.id items.
Proof.
  rewrite List.map_map. apply List.map_ext. exact f_id.
Qed.

Lemma find_same_ids x (items : list Item) :
  List.find (has_id x) (List.map f items)
  = option_map f (List.find (has_id x) items).
Proof.
  induction items as [|item rest IH]; simpl; [reflexivity|].
  rewrite (has_id_same_id x item (f item)) by apply f_id.
  destruct (has_id x item); [reflexivity|exact IH].
Qed.

Lemma count_same_ids x (items : list Item) :
  count_id x (List.map f items) = count_id x items.
Proof.
  unfold count_id. induction items as [|item rest IH]; simpl; [reflexivity|].
  rewrite (has_id_same_id x item (f item)) by apply f_id.
  destruct (has_id x item); simpl; rewrite IH; reflexivity.
Qed.

End SameIds.

(** ** What the reducer does to the items *)

Lemma updated_id x payload item :
  Item.id payload = None ∨ Item.id payload = Some x →
  Item.id (updated x payload item) = Item.id item.
Proof.
  intros Hp. unfold updated. destruct (has_id x item) eqn:E; simpl; [|reflexivity].
  apply has_id_true in E. rewrite E. destruct Hp as [-> | ->]; reflexivity.
Qed.

Lemma calculateItemTotal_id item : Item.id (calculateItemTotal item) = Item.id item.
Proof. reflexivity. Qed.

Lemma reducer_UPDATE_ITEM_items state x payload :
  State.items (reducer state (UPDATE_ITEM x payload))
  = List.map (updated x payload) (State.items state).
Proof.
  simpl. unfold calculateItemTotals. rewrite List.map_map. reflexivity.
Qed.

Lemma reducer_REMOVE_ITEM_absent state x :
  ∀ item, In item (State.items (reducer state (REMOVE_ITEM x))) →
          Item.id item ≠ Some x.
Proof.
  simpl. intros item Hin.
  apply List.in_map_iff in Hin as (item' & <- & Hin).
  apply List.filter_In in Hin as [_ Hid].
  rewrite calculateItemTotal_id. apply has_id_false.
  destruct (has_id x item'); [discriminate Hid|reflexivity].
Qed.

(** ** Running a call *)

Lemma run_mret state : run (mret tt) state = state.
Proof. reflexivity. Qed.

Lemma run_throw e state : run (throw e) state = state.
Proof. reflexivity. Qed.

Lemma run_dispatch action state : run (dispatch action) state = reducer state action.
Proof. reflexivity. Qed.

Lemma run_dispatch_invoke action supplied c state :
  run (dispatch action;; invoke supplied c) state = reducer state action.
Proof. destruct supplied; reflexivity. Qed.

Lemma run_invoke_dispatch action supplied c state :
  run (invoke supplied c;; dispatch action) state = reducer state action.
Proof. destruct supplied; reflexivity. Qed.

Lemma step_SetItems props items state :
  step props (SetItems items) state
  = reducer state
      (SET_ITEMS (List.map (fun item => Item.with_quantity item (quantity_or_1 item))
                    items)).
Proof. apply run_dispatch_invoke. Qed.

Lemma addItem_falsy_id props state item quantity :
  truthy_string (Item.id item) = false →
  addItem props state item quantity = throw MissingIdentifier.
Proof.
  unfold addItem, truthy_string. destruct (Item.id item) as [id|]; [|reflexivity].
  destruct (String.eqb id ""); [reflexivity|discriminate].
Qed.

Lemma addItem_new props state item quantity x :
  Item.id item = Some x → x ≠ "" →
  List.find (has_id x) (State.items state) = None →
  addItem props state item quantity
  = (dispatch (ADD_ITEM (Item.with_quantity item (default (Num 1) quantity)));;
     invoke (onItemAdd props)
       (OnItemAdd (Item.with_quantity item (default (Num 1) quantity)))).
Proof.
  intros Hid Hx Hfind. unfold addItem. rewrite Hid.
  rewrite (proj2 (String.eqb_neq x "") Hx). rewrite Hfind. reflexivity.
Qed.

Lemma addItem_existing props state item quantity x currentItem :
  Item.id item = Some x → x ≠ "" →
  List.find (has_id x) (State.items state) = Some currentItem →
  let payload :=
    Item.with_quantity item
      (num_add (ToNumber (Item.quantity currentItem)) (default (Num 1) quantity)) in
  addItem props state item quantity
  = (dispatch (UPDATE_ITEM x payload);;
     invoke (onItemUpdate props) (OnItemUpdate payload)).
Proof.
  intros Hid Hx Hfind. unfold addItem. rewrite Hid.
  rewrite (proj2 (String.eqb_neq x "") Hx). rewrite Hfind. reflexivity.
Qed.

Lemma step_AddItem_new props state item quantity x :
  Item.id item = Some x → x ≠ "" →
  List.find (has_id x) (State.items state) = None →
  step props (AddItem item quantity) state
  = reducer state (ADD_ITEM (Item.with_quantity item (default (Num 1) quantity))).
Proof.
  intros Hid Hx Hfind. unfold step, perform.
  rewrite (addItem_new _ _ _ _ x) by assumption. apply run_dispatch_invoke.
Qed.

Lemma step_AddItem_existing props state item quantity x currentItem :
  Item.id item = Some x → x ≠ "" →
  List.find (has_id x) (State.items state) = Some currentItem →
  step props (AddItem item quantity) state
  = reducer state
      (UPDATE_ITEM x
         (Item.with_quantity item
            (num_add (ToNumber (Item.quantity currentItem))
               (default (Num 1) quantity)))).
Proof.
  intros Hid Hx Hfind. unfold step, perform.
  rewrite (addItem_existing _ _ _ _ x currentItem) by assumption.
  apply run_dispatch_invoke.
Qed.

Lemma step_UpdateItemQuantity_remove props state x quantity :
  le_zero quantity = true →
  step props (UpdateItemQuantity x quantity) state = reducer state (REMOVE_ITEM x).
Proof.
  intros Hq. unfold step, perform, updateItemQuantity. rewrite Hq.
  apply run_invoke_dispatch.
Qed.

Lemma step_UpdateItemQuantity_update props state x quantity currentItem :
  le_zero quantity = false →
  List.find (has_id x) (State.items state) = Some currentItem →
  step props (UpdateItemQuantity x quantity) state
  = reducer state (UPDATE_ITEM x (Item.with_quantity currentItem quantity)).
Proof.
  intros Hq Hfind. unfold step, perform, updateItemQuantity. rewrite Hq, Hfind.
  apply run_dispatch_invoke.
Qed.

Lemma step_UpdateItemQuantity_missing props state x quantity :
  le_zero quantity = false →
  List.find (has_id x) (State.items state) = None →
  step props (UpdateItemQuantity x quantity) state = state.
Proof.
  intros Hq Hfind. unfold step, perform, updateItemQuantity. rewrite Hq, Hfind.
  reflexivity.
Qed.

Lemma step_RemoveItem props state x :
  x ≠ "" → step props (RemoveItem x) state = reducer state (REMOVE_ITEM x).
Proof.
  intros Hx. unfold step, perform, removeItem.
  rewrite (proj2 (String.eqb_neq x "") Hx). apply run_dispatch_invoke.
Qed.

(** ** Uniqueness of ids *)

Lemma reducer_UPDATE_ITEM_ids state x payload :
  Item.id payload = None ∨ Item.id payload = Some x →
  List.map Item.id (State.items (reducer state (UPDATE_ITEM x payload)))
  = List.map Item.id (State.items state).
Proof.
  intros Hp. rewrite reducer_UPDATE_ITEM_items.
  apply map_same_ids. intros item. apply updated_id, Hp.
Qed.

Lemma reducer_SET_ITEMS_ids state items :
  List.map Item.id (State.items (reducer state (SET_ITEMS items)))
  = List.map Item.id items.
Proof. simpl. apply calculateItemTotals_ids. Qed.

Lemma reducer_ADD_ITEM_ids state item :
  List.map Item.id (State.items (reducer state (ADD_ITEM item)))
  = List.map Item.id (State.items state) ++ [Item.id item].
Proof. simpl. rewrite calculateItemTotals_ids. apply List.map_app. Qed.

Lemma reducer_REMOVE_ITEM_unique state x :
  unique_ids state → unique_ids (reducer state (REMOVE_ITEM x)).
Proof.
  unfold unique_ids. simpl. rewrite calculateItemTotals_ids.
  apply NoDup_ids_filter.
Qed.

Lemma reducer_UPDATE_ITEM_unique state x payload :
  Item.id payload = None ∨ Item.id payload = Some x →
  unique_ids state → unique_ids (reducer state (UPDATE_ITEM x payload)).
Proof.
  intros Hp. unfold unique_ids. rewrite reducer_UPDATE_ITEM_ids by exact Hp. tauto.
Qed.

Lemma reducer_ADD_ITEM_unique state item x :
  Item.id item = Some x →
  List.find (has_id x) (State.items state) = None →
  unique_ids state → unique_ids (reducer state (ADD_ITEM item)).
Proof.
  intros Hid Hfind. unfold unique_ids. rewrite reducer_ADD_ITEM_ids, Hid.
  intros Hnd. apply NoDup_app. split; [exact Hnd|]. split.
  - intros y Hy Hy'. apply list_elem_of_In in Hy. apply list_elem_of_In in Hy'.
    destruct Hy' as [<-|[]].
    revert Hy. apply not_in_ids. apply find_has_id_None, Hfind.
  - apply NoDup_singleton.
Qed.

(** C2 (as amended): from a state in which no two items share an [id],
    [addItem], [updateItemQuantity], [removeItem], [emptyWatchlist] and the
    metadata operations always yield such a state; so does [setItems]
    when the supplied list has no two items with the same [id], and
    [updateItem] when its payload has no [id] key or carries the [id] it
    addresses. *)
Theorem step_unique_ids (props : Props) (op : operation) (state : State) :
  unique_ids state → keeps_ids op → unique_ids (step props op state).
Proof.
  intros Hu Hop. destruct op as [items|item q|x payload|x q|x| | |m|m].
  - rewrite step_SetItems. unfold unique_ids.
    rewrite reducer_SET_ITEMS_ids, List.map_map. exact Hop.
  - destruct (Item.id item) as [x|] eqn:Hid.
    + destruct (String.eqb x "") eqn:Hx.
      * unfold step, perform, addItem. rewrite Hid, Hx. exact Hu.
      * apply String.eqb_neq in Hx.
        destruct (List.find (has_id x) (State.items state)) as [cur|] eqn:Hfind.
        -- rewrite (step_AddItem_existing _ _ _ _ x cur) by assumption.
           apply reducer_UPDATE_ITEM_unique; [right; exact Hid|exact Hu].
        -- rewrite (step_AddItem_new _ _ _ _ x) by assumption.
           apply (reducer_ADD_ITEM_unique _ _ x); [exact Hid|exact Hfind|exact Hu].
    + unfold step, perform, addItem. rewrite Hid. exact Hu.
  - destruct payload as [payload|]; [|exact Hu].
    unfold step, perform, updateItem. destruct (String.eqb x ""); [exact Hu|].
    rewrite run_dispatch_invoke. apply reducer_UPDATE_ITEM_unique; assumption.
  - destruct (le_zero q) eqn:Hq.
    + rewrite step_UpdateItemQuantity_remove by exact Hq.
      apply reducer_REMOVE_ITEM_unique, Hu.
    + destruct (List.find (has_id x) (State.items state)) as [cur|] eqn:Hfind.
      * rewrite (step_UpdateItemQuantity_update _ _ _ _ cur) by assumption.
        apply reducer_UPDATE_ITEM_unique; [|exact Hu].
        right. apply (find_has_id_Some x _ cur Hfind).
      * rewrite step_UpdateItemQuantity_missing by assumption. exact Hu.
  - unfold step, perform, removeItem. destruct (String.eqb x ""); [exact Hu|].
    rewrite run_dispatch_invoke. apply reducer_REMOVE_ITEM_unique, Hu.
  - apply NoDup_nil_2.
  - exact Hu.
  - destruct m; exact Hu.
  - destruct m; exact Hu.
Qed.

Lemma one_item_unique_ids : unique_ids one_item.
Proof. vm_compute. repeat constructor. intros H. inversion H. Qed.

Lemma step_unique_ids_witness :
  unique_ids one_item
  ∧ keeps_ids (AddItem (item_of "test" 1000) None)
  ∧ unique_ids (step allCallbacks (AddItem (item_of "test" 1000) None) one_item).
Proof.
  split; [exact one_item_unique_ids|]. split; [exact I|].
  apply (step_unique_ids allCallbacks (AddItem (item_of "test" 1000) None) one_item).
  - exact one_item_unique_ids.
  - exact I.
Defined.

(** C2, as stated, fails for [setItems]: the list replaces the items
    wholesale and is not checked for duplicates, so two supplied items
    with the same [id] are both stored. *)
Lemma step_unique_ids_counterexample :
  let s := seedState "w" [] None in
  let s' := step noCallbacks (SetItems [item_of "a" 1000; item_of "a" 2000]) s in
  unique_ids s
  ∧ List.map Item.id (State.items s') = [Some "a"; Some "a"]
  ∧ ¬ unique_ids s'.
Proof.
  repeat split.
  - apply NoDup_nil_2.
  - intros H. vm_compute in H. apply NoDup_cons in H as [Hnotin _].
    apply Hnotin. left.
Qed.

(** It fails for [updateItem] too: a payload with an [id] key renames the
    item it is merged into, here onto the [id] of its neighbour. *)
Example updateItem_renames_onto_neighbour :
  let s := step noCallbacks (SetItems [item_of "a" 1000; item_of "b" 2000])
             (seedState "w" [] None) in
  let s' := step noCallbacks (UpdateItem "a" (Some (item_of "b" 1000))) s in
  unique_ids s
  ∧ List.map Item.id (State.items s') = [Some "b"; Some "b"]
  ∧ ¬ unique_ids s'.
Proof.
  repeat split.
  - vm_compute. apply NoDup_cons. split.
    + intros H. apply list_elem_of_In in H. destruct H as [H|[]]. discriminate H.
    + apply NoDup_singleton.
  - intros H. vm_compute in H. apply NoDup_cons in H as [Hnotin _].
    apply Hnotin. left.
Qed.

(** ** [addItem] on an id that is already stored *)

Lemma updated_hit x payload item :
  Item.id item = Some x →
  updated x payload item = calculateItemTotal (Item.spread item payload).
Proof.
  intros Hid. unfold updated. rewrite (proj2 (has_id_true x item) Hid). reflexivity.
Qed.

Lemma updated_miss x payload item :
  Item.id item ≠ Some x → updated x payload item = calculateItemTotal item.
Proof.
  intros Hid. unfold updated. rewrite (proj2 (has_id_false x item) Hid). reflexivity.
Qed.

Lemma count_id_app x (l1 l2 : list Item) :
  count_id x (l1 ++ l2) = (count_id x l1 + count_id x l2)%nat.
Proof. unfold count_id. rewrite List.filter_app. apply List.length_app. Qed.

Lemma find_has_id_app_absent x (l1 l2 : list Item) :
  List.find (has_id x) l1 = None →
  List.find (has_id x) (l1 ++ l2) = List.find (has_id x) l2.
Proof.
  induction l1 as [|item rest IH]; simpl; [reflexivity|].
  destruct (has_id x item); [discriminate|exact IH].
Qed.

Lemma spread_with_quantity item payload q :
  Item.quantity (calculateItemTotal (Item.spread item (Item.with_quantity payload q)))
  = Some q.
Proof. simpl. destruct (Item.quantity item); reflexivity. Qed.

(** The state after [addItem] found [currentItem] under the id [x]. *)
Lemma addItem_existing_state props state item quantity x currentItem :
  Item.id item = Some x → x ≠ "" →
  getItem state x = Some currentItem →
  let payload :=
    Item.with_quantity item
      (num_add (ToNumber (Item.quantity currentItem)) (default (Num 1) quantity)) in
  let s' := step props (AddItem item quantity) state in
  State.items s' = List.map (updated x payload) (State.items state)
  ∧ getItem s' x = Some (calculateItemTotal (Item.spread currentItem payload))
  ∧ count_id x (State.items s') = count_id x (State.items state)
  ∧ length (State.items s') = length (State.items state).
Proof.
  intros Hid Hx Hget payload s'. unfold getItem in *.
  assert (Hs' : State.items s' = List.map (updated x payload) (State.items state)).
  { unfold s'. rewrite (step_AddItem_existing _ _ _ _ x currentItem) by assumption.
    apply reducer_UPDATE_ITEM_items. }
  assert (Hf : ∀ i, Item.id (updated x payload i) = Item.id i).
  { intros i. apply updated_id. right. exact Hid. }
  rewrite Hs'. split; [reflexivity|]. split; [|split].
  - rewrite (find_same_ids _ Hf), Hget. simpl. f_equal.
    apply updated_hit. apply (find_has_id_Some x _ _ Hget).
  - apply (count_same_ids _ Hf).
  - apply List.length_map.
Qed.

(** The state after [addItem] found nothing under the id [x]. *)
Lemma addItem_new_state props state item quantity x :
  Item.id item = Some x → x ≠ "" →
  getItem state x = None →
  let payload := Item.with_quantity item (default (Num 1) quantity) in
  let s' := step props (AddItem item quantity) state in
  State.items s' = calculateItemTotals (State.items state ++ [payload])
  ∧ getItem s' x = Some (calculateItemTotal payload)
  ∧ count_id x (State.items s') = 1%nat
  ∧ length (State.items s') = S (length (State.items state)).
Proof.
  intros Hid Hx Hget payload s'. unfold getItem in *.
  assert (Hs' : State.items s' = calculateItemTotals (State.items state ++ [payload])).
  { unfold s'. rewrite (step_AddItem_new _ _ _ _ x) by assumption. reflexivity. }
  assert (Hp : has_id x payload = true) by (apply has_id_true; exact Hid).
  rewrite Hs'. unfold calculateItemTotals.
  split; [reflexivity|]. split; [|split].
  - rewrite (find_same_ids _ calculateItemTotal_id).
    rewrite find_has_id_app_absent by exact Hget. simpl. rewrite Hp. reflexivity.
  - rewrite (count_same_ids _ calculateItemTotal_id), count_id_app.
    rewrite (proj2 (count_id_0 x (State.items state)))
      by (apply find_has_id_None; exact Hget).
    unfold count_id. simpl. rewrite Hp. reflexivity.
  - rewrite List.length_map, List.length_app. simpl. lia.
Qed.

(** C3: [addItem] with a set (non-empty) id [x].  When the state holds
    exactly one item with id [x], of quantity [k], a call with requested
    quantity [q] leaves exactly one item with id [x], of quantity [k + q],
    and as many items as before.  When the state holds no item with id
    [x], two calls with that id and quantity [q] leave one item with id
    [x], of quantity [2q], and one item more than before. *)
Theorem addItem_accumulates (props : Props) (state : State) (item : Item)
    (x : string) (q : Z) :
  x ≠ "" →
  Item.id item = Some x →
  (∀ currentItem k,
      getItem state x = Some currentItem →
      count_id x (State.items state) = 1%nat →
      Item.quantity currentItem = Some (Num k) →
      let s' := step props (AddItem item (Some (Num q))) state in
      count_id x (State.items s') = 1%nat
      ∧ length (State.items s') = length (State.items state)
      ∧ (∃ item', getItem s' x = Some item'
                  ∧ Item.quantity item' = Some (Num (k + q)))
      ∧ (∀ item', In item' (State.items s') → Item.id item' = Some x →
                  Item.quantity item' = Some (Num (k + q))))
  ∧ (∀ item2,
      Item.id item2 = Some x →
      getItem state x = None →
      let s1 := step props (AddItem item (Some (Num q))) state in
      let s2 := step props (AddItem item2 (Some (Num q))) s1 in
      count_id x (State.items s2) = 1%nat
      ∧ length (State.items s2) = S (length (State.items state))
      ∧ (∃ item', getItem s2 x = Some item'
                  ∧ Item.quantity item' = Some (Num (2 * q)))).
Proof.
  intros Hx Hid. split.
  - intros cur k Hget Hcount Hk s'.
    destruct (addItem_existing_state props state item (Some (Num q)) x cur Hid Hx Hget)
      as (Hitems & Hget' & Hcount' & Hlen).
    fold s' in Hitems, Hget', Hcount', Hlen.
    rewrite Hk in Hitems, Hget'. simpl in Hitems, Hget'.
    split; [congruence|]. split; [exact Hlen|]. split.
    + eexists. split; [exact Hget'|]. apply spread_with_quantity.
    + intros item' Hin Hid'. rewrite Hitems in Hin.
      apply List.in_map_iff in Hin as (item0 & <- & _).
      rewrite updated_id in Hid' by (right; exact Hid).
      rewrite (updated_hit _ _ _ Hid'). apply spread_with_quantity.
  - intros item2 Hid2 Hget s1 s2.
    destruct (addItem_new_state props state item (Some (Num q)) x Hid Hx Hget)
      as (_ & Hget1 & Hcount1 & Hlen1).
    fold s1 in Hget1, Hcount1, Hlen1.
    destruct (addItem_existing_state props s1 item2 (Some (Num q)) x _ Hid2 Hx Hget1)
      as (_ & Hget2 & Hcount2 & Hlen2).
    fold s2 in Hget2, Hcount2, Hlen2. simpl in Hget2.
    split; [congruence|]. split; [congruence|].
    eexists. split; [exact Hget2|]. rewrite spread_with_quantity.
    simpl. do 2 f_equal. lia.
Qed.

Lemma addItem_accumulates_witness :
  let item := item_of "test" 1000 in
  let s1 := step allCallbacks (AddItem item (Some (Num 3))) one_item in
  let s2 := step allCallbacks (AddItem item (Some (Num 3)))
              (step allCallbacks (AddItem item (Some (Num 3))) initialState) in
  "test" ≠ ""
  ∧ Item.id item = Some "test"
  ∧ count_id "test" (State.items s1) = 1%nat
  ∧ (∃ item', getItem s1 "test" = Some item'
               ∧ Item.quantity item' = Some (Num (1 + 3)))
  ∧ count_id "test" (State.items s2) = 1%nat
  ∧ (∃ item', getItem s2 "test" = Some item'
               ∧ Item.quantity item' = Some (Num (2 * 3))).
Proof.
  intros item s1 s2.
  assert (Hx : "test" ≠ "") by discriminate.
  assert (Hid : Item.id item = Some "test") by reflexivity.
  destruct (addItem_accumulates allCallbacks one_item item "test" 3 Hx Hid)
    as [Hone _].
  destruct (addItem_accumulates allCallbacks initialState item "test" 3 Hx Hid)
    as [_ Htwo].
  specialize (Hone (calculateItemTotal (Item.with_quantity item (Num 1))) 1
                eq_refl eq_refl eq_refl).
  specialize (Htwo item eq_refl eq_refl).
  destruct Hone as (Hc1 & _ & Hq1 & _). destruct Htwo as (Hc2 & _ & Hq2).
  repeat split; assumption.
Defined.

(** ** Failures *)

Lemma thrown_dispatch_invoke action supplied c :
  thrown (dispatch action;; invoke supplied c) = None.
Proof. reflexivity. Qed.

Lemma thrown_invoke_dispatch action supplied c :
  thrown (invoke supplied c;; dispatch action) = None.
Proof. reflexivity. Qed.

Lemma addItem_thrown props state item quantity :
  thrown (addItem props state item quantity)
  = if truthy_string (Item.id item) then None else Some MissingIdentifier.
Proof.
  unfold addItem, truthy_string. destruct (Item.id item) as [x|]; [|reflexivity].
  destruct (String.eqb x ""); simpl; [reflexivity|].
  destruct (List.find (has_id x) (State.items state)); reflexivity.
Qed.

Lemma updateItemQuantity_thrown props state x quantity :
  thrown (updateItemQuantity props state x quantity)
  = if le_zero quantity then None
    else match getItem state x with
         | Some _ => None
         | None => Some NotFound
         end.
Proof.
  unfold updateItemQuantity, getItem. destruct (le_zero quantity); [reflexivity|].
  destruct (List.find (has_id x) (State.items state)); reflexivity.
Qed.

(** A call that throws has dispatched nothing and called nothing. *)
Lemma thrown_log_empty props state op e :
  thrown (perform props state op) = Some e → (perform props state op).1 = [].
Proof.
  destruct op as [items|item q|x payload|x q|x| | |m|m]; simpl.
  - discriminate.
  - unfold addItem. destruct (Item.id item) as [x|]; [|reflexivity].
    destruct (String.eqb x ""); [reflexivity|].
    destruct (List.find (has_id x) (State.items state)); discriminate.
  - unfold updateItem. destruct payload; [|discriminate].
    destruct (String.eqb x ""); discriminate.
  - unfold updateItemQuantity. destruct (le_zero q); [discriminate|].
    destruct (List.find (has_id x) (State.items state)); [discriminate|reflexivity].
  - unfold removeItem. destruct (String.eqb x ""); discriminate.
  - discriminate.
  - discriminate.
  - destruct m; discriminate.
  - destruct m; discriminate.
Qed.

(** C4: [addItem] throws the missing-identifier error exactly when the
    item's [id] is falsy, and throws nothing else; [updateItemQuantity]
    with a quantity above zero throws the not-found error exactly when no
    item has the given [id], and throws nothing else; and whenever a call
    of any operation throws, nothing was dispatched, no callback was
    called and the state is unchanged. *)
Theorem failures_exact (props : Props) (state : State) :
  (∀ item quantity,
      thrown (addItem props state item quantity) = Some MissingIdentifier
      ↔ truthy_string (Item.id item) = false)
  ∧ (∀ item quantity e,
      thrown (addItem props state item quantity) = Some e → e = MissingIdentifier)
  ∧ (∀ x z, 0 < z →
      (thrown (updateItemQuantity props state x (Num z)) = Some NotFound
       ↔ ∀ item, In item (State.items state) → Item.id item ≠ Some x))
  ∧ (∀ x quantity e,
      thrown (updateItemQuantity props state x quantity) = Some e → e = NotFound)
  ∧ (∀ op e,
      thrown (perform props state op) = Some e →
      dispatched (perform props state op).1 = []
      ∧ called (perform props state op).1 = []
      ∧ step props op state = state).
Proof.
  split; [|split; [|split; [|split]]].
  - intros item quantity. rewrite addItem_thrown.
    destruct (truthy_string (Item.id item)); split; congruence.
  - intros item quantity e. rewrite addItem_thrown.
    destruct (truthy_string (Item.id item)); congruence.
  - intros x z Hz. rewrite updateItemQuantity_thrown.
    replace (le_zero (Num z)) with false by (symmetry; apply Z.leb_gt; exact Hz).
    rewrite <- find_has_id_None. unfold getItem.
    destruct (List.find (has_id x) (State.items state)); split; congruence.
  - intros x quantity e. rewrite updateItemQuantity_thrown.
    destruct (le_zero quantity); [discriminate|].
    destruct (getItem state x); congruence.
  - intros op e He. unfold step, run.
    rewrite (thrown_log_empty _ _ _ _ He). repeat split.
Qed.

Example addItem_without_id_throws :
  addItem allCallbacks one_item (item_of "" 1000) None = ([], inl MissingIdentifier).
Proof. reflexivity. Qed.

Example updateItemQuantity_unknown_id_throws :
  updateItemQuantity allCallbacks one_item "other" (Num 2) = ([], inl NotFound).
Proof. reflexivity. Qed.

(** ** [setItems] *)

Lemma quantity_or_1_falsy item :
  truthy_number (Item.quantity item) = false → quantity_or_1 item = Num 1.
Proof. unfold quantity_or_1. intros ->. reflexivity. Qed.

Lemma quantity_or_1_truthy item :
  truthy_number (Item.quantity item) = true →
  Some (quantity_or_1 item) = Item.quantity item.
Proof.
  unfold quantity_or_1. intros H. rewrite H.
  destruct (Item.quantity item); [reflexivity|discriminate H].
Qed.

Lemma Forall2_map_r_intro {A B : Type} (P : A → B → Prop) (f : A → B) (l : list A) :
  (∀ a, P a (f a)) → Forall2 P l (List.map f l).
Proof. intros H. induction l; constructor; auto. Qed.

(** C5: after [setItems(L)] the items are the elements of [L], one stored
    item per supplied item and in the same order, whatever the prior state
    held.  A stored item has the [id], the price and the free-form fields
    of the supplied one; its quantity is the supplied quantity when that is
    truthy and 1 when it is falsy or absent; its [itemTotal] is the derived
    one.  So a second [setItems] leaves only the items of the second
    call. *)
Theorem setItems_replaces (props : Props) (state : State) (L : list Item) :
  let s' := step props (SetItems L) state in
  State.items s'
  = List.map (fun item =>
                calculateItemTotal (Item.with_quantity item (quantity_or_1 item))) L
  ∧ Forall2 (fun item item' =>
               Item.id item' = Item.id item
               ∧ Item.price item' = Item.price item
               ∧ Item.extra item' = Item.extra item
               ∧ (truthy_number (Item.quantity item) = true →
                  Item.quantity item' = Item.quantity item)
               ∧ (truthy_number (Item.quantity item) = false →
                  Item.quantity item' = Some (Num 1))
               ∧ itemTotal_ok item')
      L (State.items s')
  ∧ length (State.items s') = length L
  ∧ (∀ state0, State.items (step props (SetItems L) state0) = State.items s')
  ∧ (∀ L0, State.items (step props (SetItems L) (step props (SetItems L0) state))
           = State.items s').
Proof.
  intros s'.
  assert (Hitems : ∀ st, State.items (step props (SetItems L) st)
            = List.map (fun item =>
                calculateItemTotal (Item.with_quantity item (quantity_or_1 item))) L).
  { intros st. rewrite step_SetItems. simpl. unfold calculateItemTotals.
    apply List.map_map. }
  unfold s'. rewrite !Hitems. split; [reflexivity|]. split; [|split; [|split]].
  - apply Forall2_map_r_intro. intros item. simpl. repeat split.
    + intros H. apply quantity_or_1_truthy, H.
    + intros H. f_equal. apply quantity_or_1_falsy, H.
  - apply List.length_map.
  - intros state0. apply Hitems.
  - intros L0. apply Hitems.
Qed.

(** The scenario of the test suite: [x] and [y], then [z] alone. *)
Example setItems_twice :
  List.map Item.id
    (State.items
       (step noCallbacks (SetItems [item_of "z" 3000])
          (step noCallbacks (SetItems [item_of "x" 1000; item_of "y" 2000])
             initialState)))
  = [Some "z"].
Proof. reflexivity. Qed.

(** ** [updateItemQuantity] with a quantity of zero or less *)

Lemma inWatchlist_false state x :
  (∀ item, In item (State.items state) → Item.id item ≠ Some x) →
  inWatchlist state x = false.
Proof.
  intros H. unfold inWatchlist. destruct (existsb _ _) eqn:E; [|reflexivity].
  apply List.existsb_exists in E as (item & Hin & Hid).
  exfalso. apply (H item Hin). apply has_id_true, Hid.
Qed.

Lemma UpdateItemQuantity_no_zero props state x quantity item :
  In item (State.items (step props (UpdateItemQuantity x quantity) state)) →
  Item.id item = Some x →
  Item.quantity item ≠ Some (Num 0).
Proof.
  destruct (le_zero quantity) eqn:Hq.
  - rewrite step_UpdateItemQuantity_remove by exact Hq.
    intros Hin Hid. exfalso. exact (reducer_REMOVE_ITEM_absent _ _ _ Hin Hid).
  - destruct (List.find (has_id x) (State.items state)) as [cur|] eqn:Hfind.
    + rewrite (step_UpdateItemQuantity_update _ _ _ _ cur) by assumption.
      rewrite reducer_UPDATE_ITEM_items.
      intros Hin Hid. apply List.in_map_iff in Hin as (item0 & <- & _).
      rewrite updated_id in Hid
        by (right; apply (find_has_id_Some x _ cur Hfind)).
      rewrite (updated_hit _ _ _ Hid), spread_with_quantity.
      intros [= ->]. discriminate Hq.
    + rewrite step_UpdateItemQuantity_missing by assumption.
      intros Hin Hid. exfalso.
      exact (proj1 (find_has_id_None x _) Hfind item Hin Hid).
Qed.

(** C6: [updateItemQuantity(x, q)] with [q <= 0] calls [onItemRemove(x)]
    (once, when the callback was supplied) and then dispatches the removal
    of [x], nothing else; afterwards no item with id [x] is present.  For
    any quantity, no item with id [x] is left with quantity zero by this
    operation. *)
Theorem updateItemQuantity_nonpositive (props : Props) (state : State)
    (x : string) (z : Z) :
  z ≤ 0 →
  let m := updateItemQuantity props state x (Num z) in
  let s' := step props (UpdateItemQuantity x (Num z)) state in
  m = ((if onItemRemove props then [Call (OnItemRemove x)] else [])
         ++ [Dispatch (REMOVE_ITEM x)], inr tt)
  ∧ called m.1 = (if onItemRemove props then [OnItemRemove x] else [])
  ∧ dispatched m.1 = [REMOVE_ITEM x]
  ∧ (∀ item, In item (State.items s') → Item.id item ≠ Some x)
  ∧ getItem s' x = None
  ∧ inWatchlist s' x = false
  ∧ (∀ quantity item,
       In item (State.items (step props (UpdateItemQuantity x quantity) state)) →
       Item.id item = Some x →
       Item.quantity item ≠ Some (Num 0)).
Proof.
  intros Hz m s'.
  assert (Hq : le_zero (Num z) = true) by (apply Z.leb_le; exact Hz).
  assert (Hm : m = ((if onItemRemove props then [Call (OnItemRemove x)] else [])
                      ++ [Dispatch (REMOVE_ITEM x)], inr tt)).
  { unfold m, updateItemQuantity. rewrite Hq. reflexivity. }
  assert (Habsent : ∀ item, In item (State.items s') → Item.id item ≠ Some x).
  { unfold s'. rewrite step_UpdateItemQuantity_remove by exact Hq.
    apply reducer_REMOVE_ITEM_absent. }
  split; [exact Hm|]. rewrite Hm. simpl.
  split; [destruct (onItemRemove props); reflexivity|].
  split; [destruct (onItemRemove props); reflexivity|].
  split; [exact Habsent|].
  split; [apply find_has_id_None, Habsent|].
  split; [apply inWatchlist_false, Habsent|].
  intros quantity item. apply UpdateItemQuantity_no_zero.
Qed.

Lemma updateItemQuantity_nonpositive_witness :
  0 ≤ 0
  ∧ inWatchlist one_item "test" = true
  ∧ updateItemQuantity allCallbacks one_item "test" (Num 0)
    = ([Call (OnItemRemove "test"); Dispatch (REMOVE_ITEM "test")], inr tt)
  ∧ inWatchlist (step allCallbacks (UpdateItemQuantity "test" (Num 0)) one_item) "test"
    = false.
Proof.
  assert (H0 : 0 ≤ 0) by lia.
  destruct (updateItemQuantity_nonpositive allCallbacks one_item "test" 0 H0)
    as (Hm & _ & _ & _ & _ & Hin & _).
  split; [exact H0|]. split; [reflexivity|]. split; [exact Hm|exact Hin].
Defined.

(** ** [removeItem] on an id that is not stored *)

Lemma reducer_REMOVE_ITEM_absent_state state x :
  (∀ item, In item (State.items state) → Item.id item ≠ Some x) →
  reducer state (REMOVE_ITEM x) = generateWatchlistState state (State.items state).
Proof. intros H. simpl. rewrite filter_has_id_absent by exact H. reflexivity. Qed.

(** Regenerating a consistent state from its own items changes nothing
    but a missing [metadata], which becomes the empty object. *)
Lemma generateWatchlistState_fixed state :
  Consistent state →
  generateWatchlistState state (State.items state)
  = with_metadata state (default ∅ (State.metadata state)).
Proof.
  intros (Htotal & Hunique & Hempty & Hitems).
  destruct state as [i items e t u m]; simpl in *.
  unfold generateWatchlistState, with_metadata, calculateUniqueItems; simpl.
  rewrite calculateItemTotals_fixed by exact Hitems.
  rewrite calculateTotalItems_sum, <- Htotal, <- Hunique, Hempty.
  f_equal.
  - destruct i; reflexivity.
  - destruct u; reflexivity.
  - destruct m; reflexivity.
Qed.

(** C9 (as amended): for a state whose derived fields agree with its items
    and a truthy id [x] that no item carries, [removeItem(x)] dispatches
    the removal and then calls [onItemRemove(x)] (when supplied), although
    the items, [totalItems], [totalUniqueItems], [isEmpty] and [id] are
    what they were; the whole state is unchanged when it has a [metadata]
    object. *)
Theorem removeItem_absent (props : Props) (state : State) (x : string) :
  x ≠ "" →
  (∀ item, In item (State.items state) → Item.id item ≠ Some x) →
  Consistent state →
  let m := removeItem props x in
  let s' := step props (RemoveItem x) state in
  m = (Dispatch (REMOVE_ITEM x)
         :: (if onItemRemove props then [Call (OnItemRemove x)] else []), inr tt)
  ∧ called m.1 = (if onItemRemove props then [OnItemRemove x] else [])
  ∧ State.items s' = State.items state
  ∧ State.totalItems s' = State.totalItems state
  ∧ State.totalUniqueItems s' = State.totalUniqueItems state
  ∧ State.isEmpty s' = State.isEmpty state
  ∧ State.id s' = State.id state
  ∧ (is_Some (State.metadata state) → s' = state).
Proof.
  intros Hx Habsent Hcons m s'.
  assert (Hm : m = (Dispatch (REMOVE_ITEM x)
            :: (if onItemRemove props then [Call (OnItemRemove x)] else []), inr tt)).
  { unfold m, removeItem. rewrite (proj2 (String.eqb_neq x "") Hx). reflexivity. }
  assert (Hs' : s' = with_metadata state (default ∅ (State.metadata state))).
  { unfold s'. rewrite step_RemoveItem by exact Hx.
    rewrite reducer_REMOVE_ITEM_absent_state by exact Habsent.
    apply generateWatchlistState_fixed, Hcons. }
  split; [exact Hm|]. rewrite Hm, Hs'. simpl.
  split; [destruct (onItemRemove props); reflexivity|].
  repeat (split; [reflexivity|]).
  intros [md Hmd]. destruct state as [i items e t u md']; simpl in *.
  subst md'. reflexivity.
Qed.

Lemma removeItem_absent_witness :
  "other" ≠ ""
  ∧ (∀ item, In item (State.items one_item) → Item.id item ≠ Some "other")
  ∧ Consistent one_item
  ∧ called (removeItem allCallbacks "other").1 = [OnItemRemove "other"]
  ∧ step allCallbacks (RemoveItem "other") one_item = one_item.
Proof.
  assert (Hx : "other" ≠ "") by discriminate.
  assert (Habsent : ∀ item, In item (State.items one_item) →
                            Item.id item ≠ Some "other").
  { intros item [<-|[]]. discriminate. }
  destruct (removeItem_absent allCallbacks one_item "other" Hx Habsent
              one_item_Consistent) as (_ & Hcalled & _ & _ & _ & _ & _ & Hsame).
  split; [exact Hx|]. split; [exact Habsent|]. split; [exact one_item_Consistent|].
  split; [exact Hcalled|]. apply Hsame. eexists. reflexivity.
Defined.

(** C9, as stated, fails on a state whose derived fields lag behind its
    items, such as the one the provider is seeded with from
    [defaultItems]: the removal of an id nobody carries still regenerates
    the state, so the item gains an [itemTotal] and the three aggregates
    change. *)
Lemma removeItem_absent_counterexample :
  let s' := step allCallbacks (RemoveItem "other") seeded in
  "other" ≠ ""
  ∧ (∀ item, In item (State.items seeded) → Item.id item ≠ Some "other")
  ∧ called (removeItem allCallbacks "other").1 = [OnItemRemove "other"]
  ∧ State.items s' ≠ State.items seeded
  ∧ State.totalItems seeded = Num 0 ∧ State.totalItems s' = NaN
  ∧ State.totalUniqueItems seeded = 0%nat ∧ State.totalUniqueItems s' = 1%nat
  ∧ State.isEmpty seeded = true ∧ State.isEmpty s' = false.
Proof.
  repeat split.
  - discriminate.
  - intros item [<-|[]]. discriminate.
  - discriminate.
Qed.

(** ** [addItem] merges the whole item *)

(** C10: when an item with the (truthy) id [x] is stored, [addItem] with
    a new item of that id dispatches an update whose payload is the whole
    new item, and the stored item becomes the shallow merge of the new
    item over it: every field the new item supplies (price, free-form
    keys) replaces the stored value, fields it does not supply are kept,
    the quantity is the stored quantity plus the requested one and
    [itemTotal] is recomputed. *)
Theorem addItem_merges (props : Props) (state : State) (item : Item)
    (quantity : option number) (x : string) (currentItem : Item) :
  x ≠ "" →
  Item.id item = Some x →
  getItem state x = Some currentItem →
  let q := num_add (ToNumber (Item.quantity currentItem)) (default (Num 1) quantity) in
  let s' := step props (AddItem item quantity) state in
  dispatched (addItem props state item quantity).1
  = [UPDATE_ITEM x (Item.with_quantity item q)]
  ∧ ∃ item',
      getItem s' x = Some item'
      ∧ item' = calculateItemTotal
                  (Item.spread currentItem (Item.with_quantity item q))
      ∧ Item.id item' = Some x
      ∧ Item.quantity item' = Some q
      ∧ Item.price item' = Item.price item ∪ Item.price currentItem
      ∧ Item.extra item' = Item.extra item ∪ Item.extra currentItem
      ∧ (∀ p, Item.price item = Some p → Item.price item' = Some p)
      ∧ (Item.price item = None → Item.price item' = Item.price currentItem)
      ∧ (∀ k v, Item.extra item !! k = Some v → Item.extra item' !! k = Some v)
      ∧ (∀ k, Item.extra item !! k = None →
              Item.extra item' !! k = Item.extra currentItem !! k)
      ∧ itemTotal_ok item'.
Proof.
  intros Hx Hid Hget q s'. split.
  - unfold getItem in Hget.
    rewrite (addItem_existing props state item quantity x currentItem Hid Hx Hget).
    simpl. destruct (onItemUpdate props); reflexivity.
  - destruct (addItem_existing_state props state item quantity x currentItem
                Hid Hx Hget) as (_ & Hget' & _).
    eexists. split; [exact Hget'|]. split; [reflexivity|].
    split; [simpl; rewrite Hid; destruct (Item.id currentItem); reflexivity|].
    split; [apply spread_with_quantity|].
    split; [reflexivity|]. split; [reflexivity|].
    split; [|split; [|split; [|split]]]; simpl.
    + intros p ->. destruct (Item.price currentItem); reflexivity.
    + intros ->. destruct (Item.price currentItem); reflexivity.
    + intros k v Hk. apply lookup_union_Some_l, Hk.
    + intros k Hk. apply lookup_union_r, Hk.
    + apply calculateItemTotal_ok.
Qed.

Lemma addItem_merges_witness :
  let item :=
    {| Item.id := Some "test";
       Item.price := Some (Num 2500);
       Item.quantity := None;
       Item.itemTotal := None;
       Item.extra := {[ "name" := VString "renamed" ]} |} in
  let s' := step allCallbacks (AddItem item None) one_item in
  "test" ≠ ""
  ∧ Item.id item = Some "test"
  ∧ (∃ currentItem, getItem one_item "test" = Some currentItem
                     ∧ Item.price currentItem = Some (Num 1000))
  ∧ ∃ item', getItem s' "test" = Some item'
             ∧ Item.price item' = Some (Num 2500)
             ∧ Item.extra item' !! "name" = Some (VString "renamed")
             ∧ Item.quantity item' = Some (Num 2).
Proof.
  intros item s'.
  assert (Hx : "test" ≠ "") by discriminate.
  destruct (addItem_merges allCallbacks one_item item None "test"
              (calculateItemTotal (Item.with_quantity (item_of "test" 1000) (Num 1)))
              Hx eq_refl eq_refl)
    as (_ & item' & Hget & _ & _ & Hq & Hprice & Hextra & _).
  split; [exact Hx|]. split; [reflexivity|].
  split; [eexists; split; reflexivity|].
  exists item'. split; [exact Hget|].
  split; [rewrite Hprice; reflexivity|].
  split; [rewrite Hextra; reflexivity|exact Hq].
Defined.

(** ** Lookups *)

Lemma find_has_id_split x (items : list Item) item :
  List.find (has_id x) items = Some item ↔
  ∃ before after,
    items = before ++ item :: after
    ∧ Item.id item = Some x
    ∧ (∀ i, In i before → Item.id i ≠ Some x).
Proof.
  split.
  - induction items as [|i rest IH]; simpl; [discriminate|].
    destruct (has_id x i) eqn:E.
    + intros [= <-]. exists [], rest. split; [reflexivity|].
      split; [apply has_id_true, E|intros ? []].
    + intros H. destruct (IH H) as (before & after & -> & Hid & Hbefore).
      exists (i :: before), after. split; [reflexivity|]. split; [exact Hid|].
      intros i' [<-|Hin]; [apply has_id_false, E|apply Hbefore, Hin].
  - intros (before & after & -> & Hid & Hbefore).
    rewrite find_has_id_app_absent by (apply find_has_id_None, Hbefore).
    simpl. rewrite (proj2 (has_id_true x item) Hid). reflexivity.
Qed.

(** X1: [getItem(id)] returns the first item of the sequence that carries
    the id, and nothing exactly when no item carries it. *)
Theorem getItem_first (state : State) (x : string) :
  (∀ item,
      getItem state x = Some item ↔
      ∃ before after,
        State.items state = before ++ item :: after
        ∧ Item.id item = Some x
        ∧ (∀ i, In i before → Item.id i ≠ Some x))
  ∧ (getItem state x = None ↔
     ∀ item, In item (State.items state) → Item.id item ≠ Some x).
Proof.
  split.
  - intros item. apply find_has_id_split.
  - apply find_has_id_None.
Qed.

(** X2: [inWatchlist(id)] is true exactly when [getItem(id)] finds an
    item, that is, when some item carries the id. *)
Theorem inWatchlist_getItem (state : State) (x : string) :
  (inWatchlist state x = true ↔ is_Some (getItem state x))
  ∧ (inWatchlist state x = true ↔
     ∃ item, In item (State.items state) ∧ Item.id item = Some x)
  ∧ (inWatchlist state x = false ↔ getItem state x = None).
Proof.
  assert (Hexists : inWatchlist state x = true ↔
            ∃ item, In item (State.items state) ∧ Item.id item = Some x).
  { unfold inWatchlist. rewrite List.existsb_exists.
    split; intros (item & Hin & Hid); exists item; split; try exact Hin;
      apply has_id_true, Hid. }
  assert (Hsome : inWatchlist state x = true ↔ is_Some (getItem state x)).
  { rewrite Hexists. split.
    - intros (item & Hin & Hid).
      destruct (getItem state x) as [i|] eqn:E; [eexists; reflexivity|].
      exfalso. exact (proj1 (find_has_id_None x _) E item Hin Hid).
    - intros [item Hget]. exists item. apply (find_has_id_Some x _ _ Hget). }
  split; [exact Hsome|]. split; [exact Hexists|].
  rewrite <- not_true_iff_false, Hsome, <- eq_None_not_Some. reflexivity.
Qed.

(** ** [updateItemQuantity] with a quantity above zero *)

Lemma spread_own_quantity item q :
  Item.spread item (Item.with_quantity item q) = Item.with_quantity item q.
Proof.
  destruct item as [i p qty t e]. unfold Item.spread, Item.with_quantity; simpl.
  f_equal.
  - destruct i; reflexivity.
  - destruct p; reflexivity.
  - destruct qty; reflexivity.
  - destruct t; reflexivity.
  - apply map_eq. intros k. rewrite lookup_union. destruct (e !! k); reflexivity.
Qed.

(** X3: [updateItemQuantity(x, z)] with [z > 0] on a stored id dispatches
    one update whose payload is the found item with the new quantity and
    then calls [onItemUpdate] with that payload (when supplied).
    Afterwards the item found under [x] has quantity [z] and [itemTotal]
    price times [z], with [id], price and free-form fields as before; the
    sequence of ids is unchanged and the state is consistent. *)
Theorem updateItemQuantity_positive (props : Props) (state : State)
    (x : string) (z : Z) (currentItem : Item) :
  0 < z →
  getItem state x = Some currentItem →
  let payload := Item.with_quantity currentItem (Num z) in
  let s' := step props (UpdateItemQuantity x (Num z)) state in
  updateItemQuantity props state x (Num z)
  = (Dispatch (UPDATE_ITEM x payload)
       :: (if onItemUpdate props then [Call (OnItemUpdate payload)] else []),
     inr tt)
  ∧ getItem s' x
    = Some {| Item.id := Some x;
              Item.price := Item.price currentItem;
              Item.quantity := Some (Num z);
              Item.itemTotal :=
                Some (num_mul (ToNumber (Item.price currentItem)) (Num z));
              Item.extra := Item.extra currentItem |}
  ∧ List.map Item.id (State.items s') = List.map Item.id (State.items state)
  ∧ Consistent s'.
Proof.
  intros Hz Hget payload s'. unfold getItem in Hget.
  assert (Hq : le_zero (Num z) = false) by (apply Z.leb_gt; exact Hz).
  destruct (find_has_id_Some x _ _ Hget) as [_ Hid].
  assert (Hs' : s' = reducer state (UPDATE_ITEM x payload)).
  { apply step_UpdateItemQuantity_update; assumption. }
  split.
  - unfold updateItemQuantity. rewrite Hq, Hget. reflexivity.
  - rewrite Hs'. split; [|split].
    + unfold getItem. rewrite reducer_UPDATE_ITEM_items.
      rewrite find_same_ids by (intros i; apply updated_id; right; exact Hid).
      rewrite Hget. simpl. f_equal. rewrite (updated_hit _ _ _ Hid).
      unfold payload. rewrite spread_own_quantity.
      unfold calculateItemTotal, Item.with_itemTotal; simpl. rewrite Hid.
      reflexivity.
    + apply reducer_UPDATE_ITEM_ids. right. exact Hid.
    + apply generateWatchlistState_Consistent.
Qed.

Lemma updateItemQuantity_positive_witness :
  let s' := step allCallbacks (UpdateItemQuantity "test" (Num 2)) one_item in
  0 < 2
  ∧ (∃ currentItem, getItem one_item "test" = Some currentItem)
  ∧ ∃ item', getItem s' "test" = Some item'
             ∧ Item.quantity item' = Some (Num 2)
             ∧ Item.itemTotal item' = Some (Num 2000).
Proof.
  intros s'.
  assert (Hz : 0 < 2) by lia.
  destruct (updateItemQuantity_positive allCallbacks one_item "test" 2
              (calculateItemTotal (Item.with_quantity (item_of "test" 1000) (Num 1)))
              Hz eq_refl) as (_ & Hget & _).
  split; [exact Hz|]. split; [eexists; reflexivity|].
  eexists. split; [exact Hget|]. split; reflexivity.
Defined.

(** ** The shape of a call *)

(** A call either dispatches nothing or dispatches exactly one action, of
    the kind of the operation. *)
Lemma perform_dispatched props state op :
  dispatched (perform props state op).1 = []
  ∨ ∃ action,
      dispatched (perform props state op).1 = [action]
      ∧ is_item_action action = is_item_operation op
      ∧ is_metadata_action action = is_metadata_operation op.
Proof.
  destruct op as [items|item q|x payload|x q|x| | |m|m]; simpl.
  - right. eexists. unfold setItems. simpl.
    destruct (onSetItems props); simpl; repeat split.
  - unfold addItem. destruct (Item.id item) as [x|]; [|left; reflexivity].
    destruct (String.eqb x ""); [left; reflexivity|].
    destruct (List.find (has_id x) (State.items state)); right; eexists; simpl;
      [destruct (onItemUpdate props)|destruct (onItemAdd props)];
      simpl; repeat split.
  - unfold updateItem. destruct payload; [|left; reflexivity].
    destruct (String.eqb x ""); [left; reflexivity|].
    right. eexists. simpl. destruct (onItemUpdate props); simpl; repeat split.
  - unfold updateItemQuantity. destruct (le_zero q).
    + right. eexists. simpl. destruct (onItemRemove props); simpl; repeat split.
    + destruct (List.find (has_id x) (State.items state)); [|left; reflexivity].
      right. eexists. simpl. destruct (onItemUpdate props); simpl; repeat split.
  - unfold removeItem. destruct (String.eqb x ""); [left; reflexivity|].
    right. eexists. simpl. destruct (onItemRemove props); simpl; repeat split.
  - right. eexists. repeat split.
  - right. eexists. repeat split.
  - destruct m; [right; eexists; repeat split|left; reflexivity].
  - destruct m; [right; eexists; repeat split|left; reflexivity].
Qed.

Lemma step_dispatched props state op :
  (dispatched (perform props state op).1 = [] → step props op state = state)
  ∧ (∀ action, dispatched (perform props state op).1 = [action] →
               step props op state = reducer state action).
Proof.
  unfold step, run. split.
  - intros ->. reflexivity.
  - intros action ->. reflexivity.
Qed.

(** X4: every call dispatches at most one action and calls at most one
    callback, and it calls a callback only when it dispatches. *)
Theorem perform_at_most_once (props : Props) (state : State) (op : operation) :
  (length (dispatched (perform props state op).1) ≤ 1)%nat
  ∧ (length (called (perform props state op).1)
     ≤ length (dispatched (perform props state op).1))%nat.
Proof.
  destruct op as [items|item q|x payload|x q|x| | |m|m]; simpl.
  - unfold setItems. destruct (onSetItems props); simpl; lia.
  - unfold addItem. destruct (Item.id item) as [x|]; [|simpl; lia].
    destruct (String.eqb x ""); [simpl; lia|].
    destruct (List.find (has_id x) (State.items state));
      [destruct (onItemUpdate props)|destruct (onItemAdd props)]; simpl; lia.
  - unfold updateItem. destruct payload; [|simpl; lia].
    destruct (String.eqb x ""); [simpl; lia|].
    destruct (onItemUpdate props); simpl; lia.
  - unfold updateItemQuantity. destruct (le_zero q).
    + destruct (onItemRemove props); simpl; lia.
    + destruct (List.find (has_id x) (State.items state)); [|simpl; lia].
      destruct (onItemUpdate props); simpl; lia.
  - unfold removeItem. destruct (String.eqb x ""); [simpl; lia|].
    destruct (onItemRemove props); simpl; lia.
  - lia.
  - lia.
  - destruct m; simpl; lia.
  - destruct m; simpl; lia.
Qed.

(** X5: a falsy argument makes [removeItem], [updateItem],
    [setWatchlistMetadata] and [updateWatchlistMetadata] return without any
    effect: nothing is dispatched, no callback is called, nothing is
    thrown and the state stays.  [updateItemQuantity] has no such guard:
    with an empty id and a quantity of zero or less it still calls
    [onItemRemove] and dispatches the removal. *)
Theorem falsy_arguments (props : Props) (state : State) :
  (∀ op,
      (op = RemoveItem ""
       ∨ (∃ payload, op = UpdateItem "" payload)
       ∨ (∃ x, op = UpdateItem x None)
       ∨ op = SetWatchlistMetadata None
       ∨ op = UpdateWatchlistMetadata None) →
      perform props state op = ([], inr tt) ∧ step props op state = state)
  ∧ (∀ z, z ≤ 0 →
      updateItemQuantity props state "" (Num z)
      = ((if onItemRemove props then [Call (OnItemRemove "")] else [])
           ++ [Dispatch (REMOVE_ITEM "")], inr tt)).
Proof.
  split.
  - intros op [->|[[payload ->]|[[x ->]|[->| ->]]]]; try (split; reflexivity).
    destruct payload; split; reflexivity.
  - intros z Hz. unfold updateItemQuantity, le_zero.
    rewrite (proj2 (Z.leb_le z 0) Hz). reflexivity.
Qed.

(** ** What each kind of operation leaves alone *)

Lemma generateWatchlistState_id state items :
  State.id (generateWatchlistState state items) = State.id state.
Proof. simpl. destruct (State.id state); reflexivity. Qed.

Lemma generateWatchlistState_metadata state items :
  State.metadata (generateWatchlistState state items)
  = Some (default ∅ (State.metadata state)).
Proof. simpl. destruct (State.metadata state); reflexivity. Qed.

Lemma reducer_item_action state action :
  is_item_action action = true →
  State.id (reducer state action) = State.id state
  ∧ State.metadata (reducer state action) = Some (default ∅ (State.metadata state)).
Proof.
  destruct action; simpl; intros H; try discriminate H;
    (split; [destruct (State.id state)|destruct (State.metadata state)]; reflexivity).
Qed.

(** X6: no operation but [emptyWatchlist] changes the watchlist [id]; the
    operations on the items keep the contents of [metadata] (a missing
    [metadata] counts as empty); the metadata operations keep the items and
    the three aggregate fields. *)
Theorem step_frame (props : Props) (state : State) (op : operation) :
  let s' := step props op state in
  (op ≠ EmptyWatchlist → State.id s' = State.id state)
  ∧ (is_item_operation op = true →
     default ∅ (State.metadata s') = default ∅ (State.metadata state))
  ∧ (is_metadata_operation op = true →
     State.items s' = State.items state
     ∧ State.totalItems s' = State.totalItems state
     ∧ State.totalUniqueItems s' = State.totalUniqueItems state
     ∧ State.isEmpty s' = State.isEmpty state).
Proof.
  intros s'. unfold s'.
  destruct (step_dispatched props state op) as [Hnone Hone].
  destruct (perform_dispatched props state op)
    as [Hd|(action & Hd & Hitem & Hmeta)].
  - rewrite (Hnone Hd). repeat split.
  - rewrite (Hone action Hd). split; [|split].
    + intros Hop. destruct (is_item_action action) eqn:Ei.
      * apply reducer_item_action, Ei.
      * destruct (is_metadata_action action) eqn:Em.
        -- apply reducer_metadata_action, Em.
        -- destruct op; try discriminate; congruence.
    + intros Hop. rewrite Hop in Hitem.
      destruct (reducer_item_action state action Hitem) as [_ ->]. reflexivity.
    + intros Hop. rewrite Hop in Hmeta.
      destruct (reducer_metadata_action state action Hmeta) as (? & ? & ? & ? & _).
      repeat split; assumption.
Qed.

(** ** Consistency is an invariant of the provider *)

Lemma reducer_keeps_Consistent state action :
  Consistent state → Consistent (reducer state action).
Proof.
  intros H. destruct action; simpl;
    try apply generateWatchlistState_Consistent;
    try apply initialState_Consistent;
    apply with_metadata_Consistent, H.
Qed.

Lemma step_keeps_Consistent props op state :
  Consistent state → Consistent (step props op state).
Proof.
  intros H.
  destruct (step_dispatched props state op) as [Hnone Hone].
  destruct (perform_dispatched props state op) as [Hd|(action & Hd & _)].
  - rewrite (Hnone Hd). exact H.
  - rewrite (Hone action Hd). apply reducer_keeps_Consistent, H.
Qed.

Lemma seedState_empty_Consistent id metadata : Consistent (seedState id [] metadata).
Proof. repeat split. constructor. Qed.

(** X7: a provider seeded without default items stays consistent whatever
    sequence of operations is called on it: after every call [totalItems]
    is the sum of the quantities, [totalUniqueItems] the number of items,
    [isEmpty] tells whether there are none and every [itemTotal] is price
    times quantity. *)
Theorem steps_Consistent (props : Props) (id : string)
    (metadata : option (gmap string value)) (ops : list operation) :
  Consistent (steps props ops (seedState id [] metadata)).
Proof.
  unfold steps.
  generalize (seedState_empty_Consistent id metadata).
  generalize (seedState id [] metadata).
  induction ops as [|op ops IH]; intros s Hs; simpl; [exact Hs|].
  apply IH, step_keeps_Consistent, Hs.
Qed.

(** ** Metadata operations *)

(** X8: [setWatchlistMetadata] replaces the metadata by its payload;
    [updateWatchlistMetadata] merges key by key, the payload winning and
    the other keys staying; two updates in a row amount to one update with
    the merged payloads; a later [setWatchlistMetadata] or
    [clearWatchlistMetadata] forgets what an earlier update wrote. *)
Theorem metadata_operations (props : Props) (state : State) :
  (∀ m, State.metadata (step props (SetWatchlistMetadata (Some m)) state) = Some m)
  ∧ (∀ m k,
      default ∅ (State.metadata (step props (UpdateWatchlistMetadata (Some m)) state))
        !! k
      = match m !! k with
        | Some v => Some v
        | None => default ∅ (State.metadata state) !! k
        end)
  ∧ (∀ m1 m2,
      step props (UpdateWatchlistMetadata (Some m2))
        (step props (UpdateWatchlistMetadata (Some m1)) state)
      = step props (UpdateWatchlistMetadata (Some (m2 ∪ m1))) state)
  ∧ (∀ m m',
      step props (SetWatchlistMetadata (Some m'))
        (step props (UpdateWatchlistMetadata (Some m)) state)
      = step props (SetWatchlistMetadata (Some m')) state)
  ∧ (∀ m,
      step props ClearWatchlistMetadata
        (step props (UpdateWatchlistMetadata (Some m)) state)
      = step props ClearWatchlistMetadata state).
Proof.
  split; [|split; [|split; [|split]]].
  - reflexivity.
  - intros m k. unfold step, run; simpl. rewrite lookup_union.
    destruct (m !! k), (default ∅ (State.metadata state) !! k); reflexivity.
  - intros m1 m2. unfold step, run; simpl. unfold with_metadata; simpl.
    f_equal. f_equal. apply (assoc_L (∪)).
  - reflexivity.
  - reflexivity.
Qed.

(** ** Totals and [NaN] *)

Lemma num_add_NaN a b : num_add a b = NaN ↔ a = NaN ∨ b = NaN.
Proof.
  destruct a, b; simpl; split; try (intros [?|?]); try discriminate; auto.
Qed.

Lemma sum_quantities_NaN items :
  sum_quantities items = NaN ↔
  Exists (fun item => ToNumber (Item.quantity item) = NaN) items.
Proof.
  induction items as [|item rest IH]; simpl.
  - split; [discriminate|]. intros H. inversion H.
  - rewrite num_add_NaN, IH, Exists_cons. reflexivity.
Qed.

Lemma sum_quantities_app l1 l2 :
  sum_quantities (l1 ++ l2) = num_add (sum_quantities l1) (sum_quantities l2).
Proof.
  induction l1 as [|item rest IH]; simpl.
  - symmetry. apply num_add_0_l.
  - rewrite IH. apply num_add_assoc.
Qed.





(** ** [addItem] on a new id *)

(** X11: [addItem] with a truthy id that is not stored dispatches one
    [ADD_ITEM] and then calls [onItemAdd], both with the item carrying the
    requested quantity (1 when omitted).  The item goes to the end of the
    sequence with exactly that quantity, whatever it is: zero and negative
    quantities are stored too.  [totalUniqueItems] is one more than the
    number of items before, [isEmpty] is false and [totalItems] is the sum
    of the earlier quantities plus the requested one. *)
Theorem addItem_fresh (props : Props) (state : State) (item : Item)
    (quantity : option number) (x : string) :
  x ≠ "" →
  Item.id item = Some x →
  getItem state x = None →
  let q := default (Num 1) quantity in
  let payload := Item.with_quantity item q in
  let s' := step props (AddItem item quantity) state in
  addItem props state item quantity
  = (Dispatch (ADD_ITEM payload)
       :: (if onItemAdd props then [Call (OnItemAdd payload)] else []), inr tt)
  ∧ State.items s'
    = calculateItemTotals (State.items state) ++ [calculateItemTotal payload]
  ∧ Item.quantity (calculateItemTotal payload) = Some q
  ∧ State.totalUniqueItems s' = S (length (State.items state))
  ∧ State.isEmpty s' = false
  ∧ State.totalItems s' = num_add (sum_quantities (State.items state)) q.
Proof.
  intros Hx Hid Hget q payload s'. unfold getItem in Hget. split.
  - rewrite (addItem_new props state item quantity x Hid Hx Hget). reflexivity.
  - unfold s'. rewrite (step_AddItem_new _ _ _ _ x) by assumption.
    fold q. fold payload. simpl. unfold calculateItemTotals, calculateUniqueItems.
    rewrite List.map_app, List.length_app. simpl.
    split; [reflexivity|]. split; [reflexivity|].
    split; [lia|]. split.
    + destruct (length (State.items state) + 1)%nat eqn:E; [lia|reflexivity].
    + rewrite calculateTotalItems_sum, sum_quantities_app. simpl.
      rewrite num_add_0_r. reflexivity.
Qed.

Lemma addItem_fresh_witness :
  let item := item_of "free" 0 in
  let s' := step allCallbacks (AddItem item (Some (Num 0))) one_item in
  "free" ≠ ""
  ∧ Item.id item = Some "free"
  ∧ getItem one_item "free" = None
  ∧ List.map Item.id (State.items s') = [Some "test"; Some "free"]
  ∧ State.totalUniqueItems s' = 2%nat
  ∧ State.totalItems s' = Num 1.
Proof.
  intros item s'.
  assert (Hx : "free" ≠ "") by discriminate.
  destruct (addItem_fresh allCallbacks one_item item (Some (Num 0)) "free"
              Hx eq_refl eq_refl) as (_ & Hitems & _ & Hunique & _ & Htotal).
  split; [exact Hx|]. split; [reflexivity|]. split; [reflexivity|].
  split; [fold s' in Hitems; rewrite Hitems; reflexivity|].
  split; [exact Hunique|exact Htotal].
Defined.

Lemma num_mul_NaN_r a : num_mul a NaN = NaN.
Proof. destruct a; reflexivity. Qed.

(** X12: [addItem] on a stored id whose item has no numeric quantity (a
    default item supplied without [quantity], say) does not count from
    zero: the quantity, the [itemTotal] and [totalItems] all become
    [NaN]. *)
Theorem addItem_missing_quantity (props : Props) (state : State) (item : Item)
    (quantity : option number) (x : string) (currentItem : Item) :
  x ≠ "" →
  Item.id item = Some x →
  getItem state x = Some currentItem →
  ToNumber (Item.quantity currentItem) = NaN →
  let s' := step props (AddItem item quantity) state in
  (∃ item', getItem s' x = Some item'
            ∧ Item.quantity item' = Some NaN
            ∧ Item.itemTotal item' = Some NaN)
  ∧ State.totalItems s' = NaN.
Proof.
  intros Hx Hid Hget Hnan s'.
  destruct (addItem_existing_state props state item quantity x currentItem
              Hid Hx Hget) as (_ & Hget' & _).
  fold s' in Hget'. rewrite Hnan in Hget'. simpl num_add in Hget'.
  assert (Hq : Item.quantity
                 (calculateItemTotal
                    (Item.spread currentItem (Item.with_quantity item NaN)))
               = Some NaN) by apply spread_with_quantity.
  split.
  - eexists. split; [exact Hget'|]. split; [exact Hq|].
    unfold calculateItemTotal, Item.with_itemTotal; simpl.
    clear. destruct (Item.quantity currentItem); simpl; f_equal;
      apply num_mul_NaN_r.
  - assert (Hcons : Consistent s').
    { unfold s'. unfold getItem in Hget.
      rewrite (step_AddItem_existing _ _ _ _ x currentItem) by assumption.
      apply generateWatchlistState_Consistent. }
    destruct Hcons as [-> _]. apply sum_quantities_NaN, Exists_exists.
    eexists. split.
    + apply list_elem_of_In. apply (find_has_id_Some x _ _ Hget').
    + rewrite Hq. reflexivity.
Qed.

Lemma addItem_missing_quantity_witness :
  let s' := step allCallbacks (AddItem (item_of "test" 1000) None) seeded in
  "test" ≠ ""
  ∧ Item.id (item_of "test" 1000) = Some "test"
  ∧ getItem seeded "test" = Some (item_of "test" 1000)
  ∧ ToNumber (Item.quantity (item_of "test" 1000)) = NaN
  ∧ State.totalItems s' = NaN.
Proof.
  intros s'.
  assert (Hx : "test" ≠ "") by discriminate.
  destruct (addItem_missing_quantity allCallbacks seeded (item_of "test" 1000)
              None "test" (item_of "test" 1000) Hx eq_refl eq_refl eq_refl)
    as [_ Htotal].
  split; [exact Hx|]. split; [reflexivity|]. split; [reflexivity|].
  split; [reflexivity|exact Htotal].
Defined.

(** ** The reducer does not check ids *)

(** X13: [ADD_ITEM] appends whatever it is given: the result has no two
    items with the same [id] exactly when the state had none and the new
    item's [id] was not stored yet.  Keeping ids apart is left to
    [addItem]. *)
Theorem ADD_ITEM_unchecked (state : State) (item : Item) :
  State.items (reducer state (ADD_ITEM item))
  = calculateItemTotals (State.items state) ++ [calculateItemTotal item]
  ∧ (unique_ids (reducer state (ADD_ITEM item)) ↔
     unique_ids state
     ∧ ¬ In (Item.id item) (List.map Item.id (State.items state))).
Proof.
  split.
  - simpl. unfold calculateItemTotals. apply List.map_app.
  - unfold unique_ids. rewrite reducer_ADD_ITEM_ids, NoDup_app.
    split.
    + intros (Hnd & Hdisj & _). split; [exact Hnd|].
      intros Hin. apply list_elem_of_In in Hin. apply (Hdisj _ Hin). left.
    + intros [Hnd Hnotin]. split; [exact Hnd|]. split; [|apply NoDup_singleton].
      intros y Hy Hy'. apply list_elem_of_In in Hy. apply list_elem_of_In in Hy'.
      destruct Hy' as [<-|[]]. exact (Hnotin Hy).
Qed.

(** ** [removeItem] on a stored id *)

Lemma find_filter_other x y (items : list Item) :
  y ≠ x →
  List.find (has_id y) (List.filter (fun i => negb (has_id x i)) items)
  = List.find (has_id y) items.
Proof.
  intros Hne. induction items as [|i rest IH]; simpl; [reflexivity|].
  destruct (has_id x i) eqn:Ex; simpl.
  - apply has_id_true in Ex.
    rewrite (proj2 (has_id_false y i)) by congruence. exact IH.
  - destruct (has_id y i); [reflexivity|exact IH].
Qed.

Lemma length_filter_count x (items : list Item) :
  (length (List.filter (fun i => negb (has_id x i)) items) + count_id x items
   = length items)%nat.
Proof.
  unfold count_id. induction items as [|i rest IH]; simpl; [reflexivity|].
  destruct (has_id x i); simpl; lia.
Qed.

(** X14: [removeItem(x)] with a truthy id leaves no item under [x] and as
    many items fewer as carried that id; the remaining items keep their
    order, and looking up any other id finds the item it found before
    (with its total recomputed).  The state is consistent afterwards. *)
Theorem removeItem_removes (props : Props) (state : State) (x : string) :
  x ≠ "" →
  let s' := step props (RemoveItem x) state in
  State.items s'
  = calculateItemTotals
      (List.filter (fun i => negb (has_id x i)) (State.items state))
  ∧ getItem s' x = None
  ∧ (length (State.items s') + count_id x (State.items state)
     = length (State.items state))%nat
  ∧ (∀ y, y ≠ x →
          getItem s' y = option_map calculateItemTotal (getItem state y))
  ∧ Consistent s'.
Proof.
  intros Hx s'. unfold s'. rewrite step_RemoveItem by exact Hx.
  split; [reflexivity|]. split; [|split; [|split]].
  - apply find_has_id_None, reducer_REMOVE_ITEM_absent.
  - simpl. rewrite calculateItemTotals_length. apply length_filter_count.
  - intros y Hy. unfold getItem. simpl. unfold calculateItemTotals.
    rewrite (find_same_ids _ calculateItemTotal_id).
    rewrite find_filter_other by exact Hy. reflexivity.
  - apply generateWatchlistState_Consistent.
Qed.

Lemma removeItem_removes_witness :
  let s' := step allCallbacks (RemoveItem "test") one_item in
  "test" ≠ "" ∧ inWatchlist one_item "test" = true
  ∧ State.items s' = [] ∧ Consistent s'.
Proof.
  intros s'.
  assert (Hx : "test" ≠ "") by discriminate.
  destruct (removeItem_removes allCallbacks one_item "test" Hx)
    as (Hitems & _ & _ & _ & Hcons).
  split; [exact Hx|]. split; [reflexivity|]. split; [exact Hitems|exact Hcons].
Defined.

(** ** Adding and removing again *)

Lemma generateWatchlistState_twice state items items' :
  generateWatchlistState (generateWatchlistState state items) items'
  = generateWatchlistState state items'.
Proof.
  unfold generateWatchlistState; simpl. f_equal.
  - destruct (State.id state); reflexivity.
  - destruct (State.metadata state); reflexivity.
Qed.

(** X15: on a consistent state, [addItem] of a truthy id that is not stored
    followed by [removeItem] of that id gives back the items and the
    derived fields (and the whole state, when it has a [metadata]
    object). *)
Theorem addItem_removeItem (props : Props) (state : State) (item : Item)
    (quantity : option number) (x : string) :
  x ≠ "" →
  Item.id item = Some x →
  getItem state x = None →
  Consistent state →
  let s' := step props (RemoveItem x) (step props (AddItem item quantity) state) in
  State.items s' = State.items state
  ∧ State.totalItems s' = State.totalItems state
  ∧ State.totalUniqueItems s' = State.totalUniqueItems state
  ∧ State.isEmpty s' = State.isEmpty state
  ∧ State.id s' = State.id state
  ∧ (is_Some (State.metadata state) → s' = state).
Proof.
  intros Hx Hid Hget Hcons s'.
  assert (Hs' : s' = with_metadata state (default ∅ (State.metadata state))).
  { unfold s'. rewrite step_RemoveItem by exact Hx.
    unfold getItem in Hget.
    rewrite (step_AddItem_new _ _ _ _ x) by assumption.
    change (reducer (reducer state (ADD_ITEM ?p)) (REMOVE_ITEM x))
      with (generateWatchlistState
              (generateWatchlistState state (State.items state ++ [p]))
              (List.filter (fun i => negb (has_id x i))
                 (calculateItemTotals (State.items state ++ [p])))).
    rewrite generateWatchlistState_twice.
    unfold calculateItemTotals at 1. rewrite List.map_app, List.filter_app.
    simpl. rewrite (has_id_same_id x _ _ (calculateItemTotal_id _)).
    rewrite (proj2 (has_id_true x _)) by exact Hid. simpl.
    rewrite List.app_nil_r.
    destruct Hcons as (Ht & Hu & He & Hitems).
    fold (calculateItemTotals (State.items state)).
    rewrite (calculateItemTotals_fixed _ Hitems).
    rewrite filter_has_id_absent by (apply find_has_id_None; exact Hget).
    apply generateWatchlistState_fixed. repeat split; assumption. }
  rewrite Hs'. simpl. repeat (split; [reflexivity|]).
  intros [md Hmd]. destruct state as [i items e t u md']; simpl in *.
  subst md'. reflexivity.
Qed.

Lemma addItem_removeItem_witness :
  "free" ≠ ""
  ∧ Item.id (item_of "free" 500) = Some "free"
  ∧ getItem one_item "free" = None
  ∧ Consistent one_item
  ∧ step allCallbacks (RemoveItem "free")
      (step allCallbacks (AddItem (item_of "free" 500) (Some (Num 3))) one_item)
    = one_item.
Proof.
  assert (Hx : "free" ≠ "") by discriminate.
  destruct (addItem_removeItem allCallbacks one_item (item_of "free" 500)
              (Some (Num 3)) "free" Hx eq_refl eq_refl one_item_Consistent)
    as (_ & _ & _ & _ & _ & Hsame).
  split; [exact Hx|]. split; [reflexivity|]. split; [reflexivity|].
  split; [exact one_item_Consistent|]. apply Hsame. eexists. reflexivity.
Defined.

(** ** [updateItem] on an id that is not stored *)

Lemma map_update_absent x payload (items : list Item) :
  (∀ item, In item items → Item.id item ≠ Some x) →
  List.map (fun item => if negb (has_id x item) then item
                        else Item.spread item payload) items
  = items.
Proof.
  induction items as [|i rest IH]; intros H; simpl; [reflexivity|].
  rewrite (proj2 (has_id_false x i)) by (apply H; left; reflexivity). simpl.
  f_equal. apply IH. intros item Hin. apply H. right. exact Hin.
Qed.

(** X16: [updateItem(x, payload)] with a truthy id that no item carries
    throws nothing: it dispatches the update and calls [onItemUpdate] with
    the raw payload (when supplied), and on a consistent state the items
    and the derived fields stay as they were. *)
Theorem updateItem_absent (props : Props) (state : State) (x : string)
    (payload : Item) :
  x ≠ "" →
  (∀ item, In item (State.items state) → Item.id item ≠ Some x) →
  Consistent state →
  let s' := step props (UpdateItem x (Some payload)) state in
  updateItem props x (Some payload)
  = (Dispatch (UPDATE_ITEM x payload)
       :: (if onItemUpdate props then [Call (OnItemUpdate payload)] else []),
     inr tt)
  ∧ State.items s' = State.items state
  ∧ State.totalItems s' = State.totalItems state
  ∧ State.totalUniqueItems s' = State.totalUniqueItems state
  ∧ State.isEmpty s' = State.isEmpty state
  ∧ (is_Some (State.metadata state) → s' = state).
Proof.
  intros Hx Habsent Hcons s'.
  assert (Hm : updateItem props x (Some payload)
               = (Dispatch (UPDATE_ITEM x payload)
                    :: (if onItemUpdate props then [Call (OnItemUpdate payload)]
                        else []), inr tt)).
  { unfold updateItem. rewrite (proj2 (String.eqb_neq x "") Hx). reflexivity. }
  assert (Hs' : s' = with_metadata state (default ∅ (State.metadata state))).
  { unfold s', step, perform. rewrite Hm. unfold run; simpl dispatched.
    destruct (onItemUpdate props); simpl;
      rewrite map_update_absent by exact Habsent;
      apply generateWatchlistState_fixed, Hcons. }
  split; [exact Hm|]. rewrite Hs'. simpl. repeat (split; [reflexivity|]).
  intros [md Hmd]. destruct state as [i items e t u md']; simpl in *.
  subst md'. reflexivity.
Qed.

Lemma updateItem_absent_witness :
  "other" ≠ ""
  ∧ (∀ item, In item (State.items one_item) → Item.id item ≠ Some "other")
  ∧ Consistent one_item
  ∧ called (updateItem allCallbacks "other" (Some (item_of "other" 1))).1
    = [OnItemUpdate (item_of "other" 1)]
  ∧ step allCallbacks (UpdateItem "other" (Some (item_of "other" 1))) one_item
    = one_item.
Proof.
  assert (Hx : "other" ≠ "") by discriminate.
  assert (Habsent : ∀ item, In item (State.items one_item) →
                            Item.id item ≠ Some "other").
  { intros item [<-|[]]. discriminate. }
  destruct (updateItem_absent allCallbacks one_item "other" (item_of "other" 1)
              Hx Habsent one_item_Consistent) as (_ & _ & _ & _ & _ & Hsame).
  split; [exact Hx|]. split; [exact Habsent|]. split; [exact one_item_Consistent|].
  split; [reflexivity|]. apply Hsame. eexists. reflexivity.
Defined.

(** ** The storage key *)

Lemma append_inj_r (prefix a b : string) :
  String.append prefix a = String.append prefix b → a = b.
Proof.
  induction prefix as [|c prefix IH]; simpl; [tauto|].
  intros [= H]. exact (IH H).
Qed.

(** X17: the storage key.  Providers given different (truthy) ids use
    different keys, and none of those is the key of a provider without id;
    every provider without id, or with the empty string as id, uses the
    one shared key, whatever identifier was generated for it.  A truthy id
    is used as it is, otherwise the generated one. *)
Theorem storage_key_scheme :
  (∀ a b g g', a ≠ "" → b ≠ "" →
      storage_key (Some a) g = storage_key (Some b) g' → a = b)
  ∧ (∀ a g g', a ≠ "" → storage_key (Some a) g ≠ storage_key None g')
  ∧ (∀ g g', storage_key None g = storage_key None g'
             ∧ storage_key (Some "") g = storage_key None g')
  ∧ (∀ a g, a ≠ "" → provider_id (Some a) g = a)
  ∧ (∀ g, provider_id None g = g ∧ provider_id (Some "") g = g).
Proof.
  assert (Hkey : ∀ a g, a ≠ "" →
            storage_key (Some a) g = String.append "react-use-watchlist-" a).
  { intros a g Ha. unfold storage_key, provider_id, truthy_string.
    rewrite (proj2 (String.eqb_neq a "") Ha). reflexivity. }
  split; [|split; [|split; [|split]]].
  - intros a b g g' Ha Hb. rewrite !Hkey by assumption. apply append_inj_r.
  - intros a g g' Ha. rewrite Hkey by assumption. simpl. discriminate.
  - intros g g'. split; reflexivity.
  - intros a g Ha. unfold provider_id.
    rewrite (proj2 (String.eqb_neq a "") Ha). reflexivity.
  - intros g. split; reflexivity.
Qed.

(** ** Local storage *)

(** X18: storage that is missing or throws is tolerated, silently.  The
    hook starts from a stored value only when storage works and holds a
    non-empty entry under the key, and from the initial value in every
    other case.  When [window] is missing or [setItem] throws, [setValue]
    still hands the new value to React and logs the error, but the storage
    stays as it was, so a later mount reads what it would have read
    before. *)
Theorem useLocalStorage_failures (key stored : string) (value : ValueOrUpdater)
    (window : option LocalStorage) :
  (∀ initialValue,
      useLocalStorage_initial window key initialValue = initialValue
      ∨ ∃ localStorage,
          window = Some localStorage
          ∧ getItem_throws localStorage = false
          ∧ entries localStorage !! key
            = Some (useLocalStorage_initial window key initialValue)
          ∧ useLocalStorage_initial window key initialValue ≠ "")
  ∧ ((window = None
      ∨ ∃ localStorage, window = Some localStorage
                        ∧ setItem_throws localStorage = true) →
     let result := setValue key value stored window in
     storedValue result
     = match value with
       | Value v => v
       | Updater f => f stored
       end
     ∧ logged result = true
     ∧ window_after result = window
     ∧ ∀ key' initialValue,
         useLocalStorage_initial (window_after result) key' initialValue
         = useLocalStorage_initial window key' initialValue).
Proof.
  split.
  - intros initialValue. unfold useLocalStorage_initial.
    destruct window as [ls|]; [|left; reflexivity].
    destruct (getItem_throws ls) eqn:Hget; [left; reflexivity|].
    destruct (entries ls !! key) as [item|] eqn:Hitem; [|left; reflexivity].
    destruct (String.eqb item "") eqn:Hempty; [left; reflexivity|].
    right. exists ls. repeat split; try assumption.
    apply String.eqb_neq, Hempty.
  - intros [-> | (ls & -> & Hset)] result; unfold result, setValue.
    + repeat split.
    + rewrite Hset. repeat split.
Qed.

(** X19: with working storage, what [setValue] writes under a key is what
    a later mount reads back under that key, except that an empty string
    reads back as the initial value; the entries under other keys are read
    as before. *)
Theorem useLocalStorage_roundtrip (key initialValue stored : string)
    (value : ValueOrUpdater) (localStorage : LocalStorage) :
  getItem_throws localStorage = false →
  setItem_throws localStorage = false →
  let result := setValue key value stored (Some localStorage) in
  logged result = false
  ∧ useLocalStorage_initial (window_after result) key initialValue
    = (if String.eqb (storedValue result) "" then initialValue
       else storedValue result)
  ∧ (∀ key' initialValue',
       key' ≠ key →
       useLocalStorage_initial (window_after result) key' initialValue'
       = useLocalStorage_initial (Some localStorage) key' initialValue').
Proof.
  intros Hget Hset result. unfold result, setValue. rewrite Hset. simpl.
  split; [reflexivity|]. unfold useLocalStorage_initial; simpl. rewrite Hget.
  split.
  - rewrite lookup_insert_eq. reflexivity.
  - intros key' initialValue' Hne. rewrite lookup_insert_ne by congruence.
    reflexivity.
Qed.

Lemma useLocalStorage_roundtrip_witness :
  let localStorage :=
    {| entries := {[ "react-use-watchlist" := "old" ]};
       getItem_throws := false;
       setItem_throws := false |} in
  getItem_throws localStorage = false
  ∧ setItem_throws localStorage = false
  ∧ useLocalStorage_initial (Some localStorage) "react-use-watchlist" "seed" = "old"
  ∧ useLocalStorage_initial
      (window_after
         (setValue "react-use-watchlist" (Value "new") "old" (Some localStorage)))
      "react-use-watchlist" "seed"
    = "new".
Proof.
  intros localStorage.
  destruct (useLocalStorage_roundtrip "react-use-watchlist" "seed" "old"
              (Value "new") localStorage eq_refl eq_refl) as (_ & Hread & _).
  split; [reflexivity|]. split; [reflexivity|]. split; [reflexivity|exact Hread].
Defined.

(** ** The identifier generator *)

Lemma toString36_digit d : (d < 36)%nat → toString36 d = String (digit36 d) "".
Proof.
  intros Hd. unfold toString36. cbn [toString36_from].
  rewrite Nat.div_small, Nat.mod_small by exact Hd. reflexivity.
Qed.

Lemma concat_digit c (l : list string) :
  String.concat "" (String c "" :: l) = String c (String.concat "" l).
Proof. destruct l; reflexivity. Qed.

Lemma get_In n s c : String.get n s = Some c → In c (list_ascii_of_string s).
Proof.
  revert n. induction s as [|a s IH]; intros n; simpl; [discriminate|].
  destruct n as [|n]; [intros [= <-]; left; reflexivity|].
  intros H. right. exact (IH n H).
Qed.

Lemma digit36_In d : (d < 36)%nat → In (digit36 d) (list_ascii_of_string digits36).
Proof.
  intros Hd. unfold digit36.
  destruct (String.get d digits36) as [c|] eqn:E.
  - exact (get_In _ _ _ E).
  - exfalso. revert E. do 36 (destruct d as [|d]; [discriminate|]). lia.
Qed.

(** X20: when every draw [~~(Math.random() * 36)] is below 36, the
    generated identifier has exactly as many characters as requested (12
    by default) and consists of the digits [0-9a-z]. *)
Theorem createWatchlistIdentifier_length (draw : nat → nat) (len : option nat) :
  (∀ i, (draw i < 36)%nat) →
  String.length (createWatchlistIdentifier draw len) = default 12%nat len
  ∧ Forall (fun c => In c (list_ascii_of_string digits36))
      (list_ascii_of_string (createWatchlistIdentifier draw len)).
Proof.
  intros Hdraw. unfold createWatchlistIdentifier.
  assert (H : ∀ l : list nat,
            String.length
              (String.concat "" (List.map (fun i => toString36 (draw i)) l))
            = length l
            ∧ Forall (fun c => In c (list_ascii_of_string digits36))
                (list_ascii_of_string
                   (String.concat "" (List.map (fun i => toString36 (draw i)) l)))).
  { induction l as [|i l [IHlen IHall]]; simpl List.map.
    - split; [reflexivity|constructor].
    - rewrite (toString36_digit _ (Hdraw i)), concat_digit. simpl. split.
      + f_equal. exact IHlen.
      + constructor; [apply digit36_In, Hdraw|exact IHall]. }
  destruct (H (List.seq 0 (default 12%nat len))) as [Hlen Hall].
  split; [|exact Hall]. rewrite Hlen. apply List.length_seq.
Qed.

Lemma createWatchlistIdentifier_length_witness :
  (∀ i, ((i * 7) mod 36 < 36)%nat)
  ∧ createWatchlistIdentifier (fun i => (i * 7) mod 36)%nat None = "07elsz6dkry5"
  ∧ String.length (createWatchlistIdentifier (fun i => (i * 7) mod 36)%nat None)
    = 12%nat
  ∧ String.length
      (createWatchlistIdentifier (fun i => (i * 7) mod 36)%nat (Some 20%nat))
    = 20%nat.
Proof.
  assert (H : ∀ i, ((i * 7) mod 36 < 36)%nat)
    by (intros i; apply Nat.mod_upper_bound; discriminate).
  destruct (createWatchlistIdentifier_length (fun i => (i * 7) mod 36)%nat None H)
    as [H12 _].
  destruct (createWatchlistIdentifier_length (fun i => (i * 7) mod 36)%nat
              (Some 20%nat) H) as [H20 _].
  split; [exact H|]. split; [reflexivity|]. split; [exact H12|exact H20].
Defined.

(** ** [setItems] with the items already stored *)

Lemma with_quantity_truthy item :
  truthy_number (Item.quantity item) = true →
  Item.with_quantity item (quantity_or_1 item) = item.
Proof.
  intros H. unfold Item.with_quantity. rewrite (quantity_or_1_truthy _ H).
  destruct item; reflexivity.
Qed.

(** X21: on a consistent state whose stored quantities are all truthy,
    handing the stored items back to [setItems] changes neither the items
    nor the derived fields. *)
Theorem setItems_stored_items (props : Props) (state : State) :
  Consistent state →
  Forall (fun item => truthy_number (Item.quantity item) = true)
    (State.items state) →
  let s' := step props (SetItems (State.items state)) state in
  State.items s' = State.items state
  ∧ State.totalItems s' = State.totalItems state
  ∧ State.totalUniqueItems s' = State.totalUniqueItems state
  ∧ State.isEmpty s' = State.isEmpty state.
Proof.
  intros Hcons Htruthy s'.
  assert (Hs' : s' = with_metadata state (default ∅ (State.metadata state))).
  { unfold s'. rewrite step_SetItems.
    replace (List.map (fun item => Item.with_quantity item (quantity_or_1 item))
               (State.items state)) with (State.items state).
    - apply generateWatchlistState_fixed, Hcons.
    - induction Htruthy as [|item rest Hq _ IH]; simpl; [reflexivity|].
      rewrite (with_quantity_truthy _ Hq). f_equal. exact IH. }
  rewrite Hs'. repeat split.
Qed.

Lemma setItems_stored_items_witness :
  Consistent one_item
  ∧ Forall (fun item => truthy_number (Item.quantity item) = true)
      (State.items one_item)
  ∧ State.items (step allCallbacks (SetItems (State.items one_item)) one_item)
    = State.items one_item.
Proof.
  assert (Htruthy : Forall (fun item => truthy_number (Item.quantity item) = true)
                      (State.items one_item)).
  { constructor; [reflexivity|constructor]. }
  destruct (setItems_stored_items allCallbacks one_item one_item_Consistent Htruthy)
    as [Hitems _].
  split; [exact one_item_Consistent|]. split; [exact Htruthy|exact Hitems].
Defined.

(** ** [updateItem] merges the payload *)

(** X22: [updateItem(x, payload)] with a truthy id that is stored, and a
    payload that does not rename the item, dispatches the update and calls
    [onItemUpdate] with the raw payload.  The item found under [x]
    afterwards is the shallow merge of the payload over the stored item
    with its total recomputed: a field the payload has replaces the stored
    one, the others stay. *)
Theorem updateItem_merges (props : Props) (state : State) (x : string)
    (payload currentItem : Item) :
  x ≠ "" →
  getItem state x = Some currentItem →
  Item.id payload = None ∨ Item.id payload = Some x →
  let s' := step props (UpdateItem x (Some payload)) state in
  called (updateItem props x (Some payload)).1
  = (if onItemUpdate props then [OnItemUpdate payload] else [])
  ∧ ∃ item',
      getItem s' x = Some item'
      ∧ item' = calculateItemTotal (Item.spread currentItem payload)
      ∧ Item.id item' = Some x
      ∧ Item.price item' = Item.price payload ∪ Item.price currentItem
      ∧ Item.quantity item' = Item.quantity payload ∪ Item.quantity currentItem
      ∧ Item.extra item' = Item.extra payload ∪ Item.extra currentItem
      ∧ itemTotal_ok item'
      ∧ List.map Item.id (State.items s') = List.map Item.id (State.items state)
      ∧ Consistent s'.
Proof.
  intros Hx Hget Hp s'. unfold getItem in Hget.
  destruct (find_has_id_Some x _ _ Hget) as [_ Hid].
  assert (Hm : updateItem props x (Some payload)
               = (Dispatch (UPDATE_ITEM x payload)
                    :: (if onItemUpdate props then [Call (OnItemUpdate payload)]
                        else []), inr tt)).
  { unfold updateItem. rewrite (proj2 (String.eqb_neq x "") Hx). reflexivity. }
  assert (Hs' : s' = reducer state (UPDATE_ITEM x payload)).
  { unfold s', step, perform. rewrite Hm. unfold run.
    destruct (onItemUpdate props); reflexivity. }
  split.
  - rewrite Hm. destruct (onItemUpdate props); reflexivity.
  - eexists. rewrite Hs'. split.
    + unfold getItem. rewrite reducer_UPDATE_ITEM_items.
      rewrite find_same_ids by (intros i; apply updated_id, Hp).
      rewrite Hget. simpl. rewrite (updated_hit _ _ _ Hid). reflexivity.
    + split; [reflexivity|]. split.
      * simpl. rewrite Hid. destruct Hp as [-> | ->]; reflexivity.
      * split; [reflexivity|]. split; [reflexivity|]. split; [reflexivity|].
        split; [apply calculateItemTotal_ok|]. split.
        -- apply reducer_UPDATE_ITEM_ids, Hp.
        -- apply generateWatchlistState_Consistent.
Qed.

Lemma updateItem_merges_witness :
  let payload :=
    {| Item.id := None; Item.price := None; Item.quantity := Some (Num 2);
       Item.itemTotal := None; Item.extra := ∅ |} in
  let s' := step allCallbacks (UpdateItem "test" (Some payload)) seeded in
  "test" ≠ ""
  ∧ getItem seeded "test" = Some (item_of "test" 1000)
  ∧ (Item.id payload = None ∨ Item.id payload = Some "test")
  ∧ (∃ item', getItem s' "test" = Some item'
              ∧ Item.quantity item' = Some (Num 2)
              ∧ Item.price item' = Some (Num 1000))
  ∧ State.totalItems s' = Num 2.
Proof.
  intros payload s'.
  assert (Hx : "test" ≠ "") by discriminate.
  destruct (updateItem_merges allCallbacks seeded "test" payload
              (item_of "test" 1000) Hx eq_refl (or_introl eq_refl))
    as (_ & item' & Hget & _ & _ & Hprice & Hq & _).
  split; [exact Hx|]. split; [reflexivity|]. split; [left; reflexivity|].
  split; [|reflexivity].
  exists item'. split; [exact Hget|]. split; [exact Hq|exact Hprice].
Defined.

(** ** The state a provider starts from *)

(** X23: the state a provider builds from [defaultItems] over an empty
    store is consistent exactly when there are no default items: with any,
    [totalUniqueItems] is [0] and [isEmpty] is [true] next to a non-empty
    item sequence, until the first action on the items regenerates the
    state. *)
Theorem seedState_Consistent (id : string) (defaultItems : list Item)
    (metadata : option (gmap string value)) :
  (Consistent (seedState id defaultItems metadata) ↔ defaultItems = [])
  ∧ (∀ action, is_item_action action = true →
       Consistent (reducer (seedState id defaultItems metadata) action)).
Proof.
  split.
  - split.
    + intros (_ & Hlen & _). simpl in Hlen. destruct defaultItems; [reflexivity|].
      discriminate Hlen.
    + intros ->. apply seedState_empty_Consistent.
  - intros action H. destruct action; try discriminate H;
      apply generateWatchlistState_Consistent.
Qed.

(** ** After [emptyWatchlist] *)

Lemma step_id props op state :
  State.id (step props op state) = State.id state
  ∨ State.id (step props op state) = None.
Proof.
  destruct (step_dispatched props state op) as [Hnone Hone].
  destruct (perform_dispatched props state op) as [Hd|(action & Hd & _)].
  - left. rewrite (Hnone Hd). reflexivity.
  - rewrite (Hone action Hd). destruct action; simpl;
      try (left; destruct (State.id state); reflexivity).
    right. reflexivity.
Qed.

(** X24: [emptyWatchlist] drops the watchlist [id] for good: whatever
    operations are called afterwards, the state has no [id]. *)
Theorem emptyWatchlist_forgets_id (props : Props) (state : State)
    (ops : list operation) :
  State.id (steps props ops (step props EmptyWatchlist state)) = None.
Proof.
  unfold steps.
  assert (H : State.id (step props EmptyWatchlist state) = None) by reflexivity.
  revert H. generalize (step props EmptyWatchlist state).
  induction ops as [|op ops IH]; intros s Hs; simpl; [exact Hs|].
  apply IH. destruct (step_id props op s) as [-> | ->]; [exact Hs|reflexivity].
Qed.
